(** * GenomeLoader: batch generators over genomic intervals

    A shallow embedding of [genomeloader/generator.py] (the classes
    [MultiBedGenerator] and [BedGraphGenerator]) and the properties of
    its batch indexing, jitter, labelling, negative-pool and
    epoch-scheduling logic.

    Conventions of the embedding:
    - Python integers are [Z] (unbounded).
    - Python floats are exact rationals [Q].  Every float the code computes
      is an integer or a half-integer built from interval coordinates and
      configured lengths, so it is exactly representable as long as the
      magnitudes stay below 2^52; true division [/] is [Qdiv].
    - [int(x)] on a float truncates toward zero ([Z.quot]).
    - Exceptions are values of [exn]; a computation that may raise lives in
      [result].
    - [numpy.random]'s global generator is an explicit state of an abstract
      type threaded through every draw.
    - pandas frames of intervals are lists of rows; [df[a:b]] is Python's
      positional slice. *)

From Stdlib Require Import ZArith QArith Qround Qminmax Lia Lqa.
From stdpp Require Import base list gmap strings.

Local Open Scope Z_scope.

(** ** Python values, exceptions and results *)

Inductive pyval : Type :=
  | VNone
  | VBool (b : bool)
  | VInt (z : Z)
  | VFloat (q : Q)
  | VStr (s : string).

Inductive exn : Type :=
  | ValueError (msg : string)
  | AttributeError (attr : string)
  | TypeError
  | KeyError (key : string)
  | ZeroDivisionError
  | IndexError
  | BEDToolsError.

Inductive result (A : Type) : Type :=
  | Ok (a : A)
  | Raise (e : exn).
Arguments Ok {A} a.
Arguments Raise {A} e.

Definition is_ok {A} (r : result A) : bool :=
  match r with Ok _ => true | Raise _ => false end.

(** Computations that read the global random generator and may raise. *)
Definition Rand (S A : Type) : Type := S → result (A * S).

Definition rret {S A} (a : A) : Rand S A := λ g, Ok (a, g).

Definition rbind {S A B} (m : Rand S A) (k : A → Rand S B) : Rand S B :=
  λ g, match m g with
       | Ok (a, g') => k a g'
       | Raise e => Raise e
       end.

Definition rraise {S A} (e : exn) : Rand S A := λ _, Raise e.

(** The value of a run, forgetting the generator state it ends in. *)
Definition run_value {S A} (r : result (A * S)) : result A :=
  match r with
  | Ok (a, _) => Ok a
  | Raise e => Raise e
  end.

Definition bind_result {A B} (m : result A) (k : A → result B) : result B :=
  match m with
  | Ok a => k a
  | Raise e => Raise e
  end.

Definition lift_result {S A} (m : result A) : Rand S A :=
  λ g, match m with
       | Ok a => Ok (a, g)
       | Raise e => Raise e
       end.

Notation "'let!' x ':=' m 'in' k" := (bind_result m (λ x, k))
  (at level 10, x name, m at level 100, k at level 200, only parsing).

Notation "'do' x '<-' m ';' k" := (rbind m (λ x, k))
  (at level 10, x name, m at level 100, k at level 200, only parsing).

(** ** Numeric primitives *)

(** [int(x)] for a float [x]: truncation toward zero. *)
Definition py_int (x : Q) : Z := Z.quot (Qnum x) (Z.pos (Qden x)).

(** [a / b] on integers (true division). *)
Definition py_truediv (a b : Z) : result Q :=
  if b =? 0 then Raise ZeroDivisionError
  else Ok (inject_Z a / inject_Z b)%Q.

(** [x / 2] for an integer [x]. *)
Definition half (x : Z) : Q := (inject_Z x / 2)%Q.

(** ** Positional slicing [l[a:b]] *)

(** The normalisation of one slice bound against a length [n]
    (what [slice.indices] does for step 1). *)
Definition clamp_index (n i : Z) : Z :=
  if i <? 0 then Z.max 0 (i + n) else Z.min i n.

Definition py_slice {A} (a b : Z) (l : list A) : list A :=
  let n := Z.of_nat (length l) in
  let lo := clamp_index n a in
  let hi := clamp_index n b in
  take (Z.to_nat (hi - lo)) (drop (Z.to_nat lo) l).

(** ** Genomic intervals and the interval-set objects *)

Record Interval : Type := mkInterval {
  chrom : string;
  chromStart : Z;
  chromEnd : Z;
}.

(** A [pybedtools.BedTool]: its rows and the chromosome sizes attached by
    [set_chromsizes] (pybedtools stores [(0, size)] pairs). *)
Record BedTool : Type := mkBedTool {
  bt_rows : list Interval;
  bt_chromsizes : option (gmap string (Z * Z));
}.

Definition set_chromsizes (cs : gmap string (Z * Z)) (b : BedTool) : BedTool :=
  {| bt_rows := bt_rows b; bt_chromsizes := Some cs |}.

(** A [BedWrapper]: it owns a BedTool [bt]; [df] is the frame of its rows. *)
Record BedWrapper : Type := mkBedWrapper { bt : BedTool }.

Definition df (w : BedWrapper) : list Interval := bt_rows (bt w).

(** [BedWrapper(tool.fn)]: a fresh wrapper over the rows written to the
    tool's file; the fresh BedTool carries no chromosome sizes. *)
Definition BedWrapper_of_fn (rows : list Interval) : BedWrapper :=
  {| bt := {| bt_rows := rows; bt_chromsizes := None |} |}.

Definition bw_set_chromsizes (cs : gmap string (Z * Z)) (w : BedWrapper) : BedWrapper :=
  {| bt := set_chromsizes cs (bt w) |}.

(** [a.cat(b, postmerge=False)]: the rows of [a] followed by those of [b],
    in a new BedTool. *)
Definition cat_nomerge (a b : BedTool) : BedTool :=
  {| bt_rows := bt_rows a ++ bt_rows b; bt_chromsizes := None |}.

(** ** Facts about the primitives *)

Lemma half_mul (x : Z) : (half x == inject_Z x * (1 # 2))%Q.
Proof. unfold half. field. Qed.

Lemma py_int_inject (z : Z) : py_int (inject_Z z) = z.
Proof. unfold py_int; simpl. apply Z.quot_1_r. Qed.

Lemma py_int_nonneg (x : Q) : (0 <= x)%Q → py_int x = Qfloor x.
Proof.
  destruct x as [n d]. unfold py_int, Qfloor, Qle; simpl. intros H.
  apply Z.quot_div_nonneg; lia.
Qed.

Lemma py_int_opp (x : Q) : py_int (- x) = - py_int x.
Proof. destruct x as [n d]. unfold py_int; simpl. apply Z.quot_opp_l. lia. Qed.

Lemma py_int_le_nonneg (x : Q) : (0 <= x)%Q → (inject_Z (py_int x) <= x)%Q.
Proof. intros H. rewrite py_int_nonneg by exact H. apply Qfloor_le. Qed.

Lemma py_int_nonneg_pos (x : Q) : (0 <= x)%Q → 0 <= py_int x.
Proof.
  intros H. rewrite py_int_nonneg by exact H.
  change 0 with (Qfloor 0). now apply Qfloor_resp_le.
Qed.

Lemma py_int_succ (x : Q) : (0 <= x)%Q → py_int (x + 1) = py_int x + 1.
Proof.
  intros H. rewrite !py_int_nonneg by lra.
  destruct x as [n d]. unfold Qfloor, Qplus; simpl.
  rewrite Z.mul_1_r, Pos.mul_1_r.
  replace (n + Z.pos d) with (n + 1 * Z.pos d) by lia.
  rewrite Z.div_add by lia. reflexivity.
Qed.

Lemma py_int_neg_nonpos (x : Q) : (x < 0)%Q → py_int x <= 0.
Proof.
  intros H. assert (Hx : (0 <= - x)%Q) by lra.
  pose proof (py_int_nonneg_pos _ Hx) as H0. rewrite py_int_opp in H0. lia.
Qed.

Lemma py_int_lt_one (x : Q) : (x < 1)%Q → py_int x <= 0.
Proof.
  intros H. destruct (Qlt_le_dec x 0) as [Hn | Hp].
  - now apply py_int_neg_nonpos.
  - rewrite py_int_nonneg by exact Hp.
    assert (Hf : (inject_Z (Qfloor x) < inject_Z 1)%Q).
    { eapply Qle_lt_trans; [apply Qfloor_le | exact H]. }
    rewrite <- Zlt_Qlt in Hf. lia.
Qed.

Lemma py_int_nonneg_lt (x : Q) : (0 <= x)%Q → (x < inject_Z (py_int x + 1))%Q.
Proof. intros H. rewrite py_int_nonneg by exact H. apply Qlt_floor. Qed.

Lemma py_int_nonpos_ge (x : Q) : (x <= 0)%Q → (x <= inject_Z (py_int x))%Q.
Proof.
  intros H. assert (Hx : (0 <= - x)%Q) by lra.
  pose proof (py_int_le_nonneg _ Hx) as Hle. rewrite py_int_opp, inject_Z_opp in Hle. lra.
Qed.

Lemma py_int_nonpos_gt (x : Q) : (x <= 0)%Q → (inject_Z (py_int x - 1) < x)%Q.
Proof.
  intros H. assert (Hx : (0 <= - x)%Q) by lra.
  pose proof (py_int_nonneg_lt _ Hx) as Hlt. rewrite py_int_opp in Hlt.
  replace (- py_int x + 1) with (- (py_int x - 1)) in Hlt by lia.
  rewrite inject_Z_opp in Hlt. lra.
Qed.

(** Truncation moves a number by less than one, toward zero. *)
Lemma py_int_within_one (x : Q) :
  (inject_Z (py_int x) - 1 < x)%Q ∧ (x < inject_Z (py_int x) + 1)%Q.
Proof.
  destruct (Qlt_le_dec x 0) as [Hn | Hp].
  - assert (Hx : (x <= 0)%Q) by lra.
    pose proof (py_int_nonpos_ge x Hx). pose proof (py_int_nonpos_gt x Hx) as Hg.
    unfold Z.sub in Hg. rewrite inject_Z_plus, inject_Z_opp in Hg.
    change (inject_Z 1) with 1%Q in Hg. split; lra.
  - pose proof (py_int_le_nonneg x Hp). pose proof (py_int_nonneg_lt x Hp) as Hl.
    rewrite inject_Z_plus in Hl. change (inject_Z 1) with 1%Q in Hl. split; lra.
Qed.

Lemma py_int_mono (x y : Q) : (x <= y)%Q → py_int x <= py_int y.
Proof.
  intros H. destruct (Qlt_le_dec x 0) as [Hx | Hx]; destruct (Qlt_le_dec y 0) as [Hy | Hy].
  - assert (H' : (- y <= - x)%Q) by lra.
    assert (H0 : (0 <= - y)%Q) by lra. assert (H1 : (0 <= - x)%Q) by lra.
    pose proof (Qfloor_resp_le _ _ H') as Hf.
    rewrite <- !py_int_nonneg, !py_int_opp in Hf by assumption. lia.
  - pose proof (py_int_neg_nonpos x Hx). pose proof (py_int_nonneg_pos y Hy). lia.
  - lra.
  - rewrite !py_int_nonneg by assumption. now apply Qfloor_resp_le.
Qed.

Section slice_facts.
Context {A : Type}.
Implicit Types l : list A.

Lemma py_slice_nonneg (a b : Z) l :
  0 <= a → a <= b →
  py_slice a b l = take (Z.to_nat (b - a)) (drop (Z.to_nat a) l).
Proof.
  intros Ha Hb. unfold py_slice, clamp_index.
  destruct (Z.ltb_spec a 0); [lia |]. destruct (Z.ltb_spec b 0); [lia |].
  set (n := Z.of_nat (length l)).
  destruct (Z.le_gt_cases n a) as [Hge | Hlt].
  - rewrite !drop_ge by lia. now rewrite !take_nil.
  - rewrite (Z.min_l a n) by lia.
    destruct (Z.le_gt_cases b n) as [Hbn | Hbn].
    + now rewrite (Z.min_l b n) by lia.
    + rewrite (Z.min_r b n) by lia.
      rewrite !take_ge; [reflexivity | |]; rewrite length_drop; lia.
Qed.

Lemma py_slice_past_end (a b : Z) l :
  Z.of_nat (length l) <= a → 0 <= b → py_slice a b l = [].
Proof.
  intros Ha Hb. unfold py_slice, clamp_index.
  destruct (Z.ltb_spec a 0); [lia |]. destruct (Z.ltb_spec b 0); [lia |].
  rewrite drop_ge by lia. apply take_nil.
Qed.

Lemma py_slice_stop_zero (a : Z) l : py_slice a 0 l = [].
Proof.
  unfold py_slice, clamp_index.
  change (0 <? 0) with false; cbv iota.
  set (n := Z.of_nat (length l)). assert (0 <= n) by lia.
  replace (Z.to_nat (Z.min 0 n - _)) with 0%nat; [reflexivity |].
  destruct (Z.ltb_spec a 0); lia.
Qed.
End slice_facts.

Section slice_segments.
Context {A : Type}.
Implicit Types l : list A.

Lemma clamp_index_range (n i : Z) : 0 <= n → 0 <= clamp_index n i <= n.
Proof. intros Hn. unfold clamp_index. destruct (Z.ltb_spec i 0); lia. Qed.

Lemma clamp_index_diff (n i j : Z) :
  0 <= n → i <= j → clamp_index n j - clamp_index n i <= j - i.
Proof.
  intros Hn H. unfold clamp_index.
  destruct (Z.ltb_spec i 0), (Z.ltb_spec j 0); lia.
Qed.

Lemma py_slice_length (a b : Z) l :
  Z.of_nat (length (py_slice a b l))
  = Z.max 0 (clamp_index (Z.of_nat (length l)) b - clamp_index (Z.of_nat (length l)) a).
Proof.
  unfold py_slice. rewrite length_take, length_drop.
  pose proof (clamp_index_range (Z.of_nat (length l)) a ltac:(lia)).
  pose proof (clamp_index_range (Z.of_nat (length l)) b ltac:(lia)). lia.
Qed.

Lemma py_slice_segment (a b : Z) l :
  ∃ pre post, l = pre ++ py_slice a b l ++ post.
Proof.
  unfold py_slice.
  set (lo := Z.to_nat (clamp_index (Z.of_nat (length l)) a)).
  set (k := Z.to_nat _).
  exists (take lo l), (drop k (drop lo l)).
  now rewrite take_drop, take_drop.
Qed.

End slice_segments.

(** Ceiling of a true division, as [np.ceil(a / b)] computes it. *)
Lemma Qceiling_div (a b : Z) :
  0 < b → Qceiling (inject_Z a / inject_Z b) = (a + b - 1) / b.
Proof.
  intros Hb. unfold Qceiling.
  assert (E : (- (inject_Z a / inject_Z b) == inject_Z (- a) / inject_Z b)%Q).
  { rewrite inject_Z_opp. field. intros H0.
    apply (Qeq_bool_neq (inject_Z b) 0); [| exact H0].
    unfold Qeq_bool; simpl. rewrite Z.mul_1_r. apply Z.eqb_neq. lia. }
  rewrite E, <- Zdiv_Qdiv.
  pose proof (Z.mod_pos_bound (- a) b Hb) as Hm.
  pose proof (Z.div_mod (- a) b) as Hd.
  apply Z.div_unique_pos with (r := b - 1 - (- a) `mod` b); lia.
Qed.

Lemma ceiling_bounds (n b : Z) :
  0 < b → n <= (n + b - 1) / b * b < n + b.
Proof.
  intros Hb. pose proof (Z.div_mod (n + b - 1) b) as Hd.
  pose proof (Z.mod_pos_bound (n + b - 1) b Hb) as Hm. lia.
Qed.

(** Cutting a list into consecutive chunks of [b] and gluing them back. *)
Lemma concat_chunks {A} (b : nat) (l : list A) (k : nat) :
  (0 < b)%nat → (length l ≤ k * b)%nat →
  concat (map (λ i, take b (drop (i * b) l)) (seq 0 k)) = l.
Proof.
  intros Hb. revert l. induction k as [| k IH]; intros l Hk.
  - destruct l; [reflexivity | simpl in Hk; lia].
  - cbn [seq map concat]. rewrite <- seq_shift, map_map.
    change (0 * b)%nat with 0%nat. cbn [drop].
    transitivity (take b l ++ drop b l); [| apply take_drop]. f_equal.
    rewrite <- (IH (drop b l)) by (rewrite length_drop; lia).
    f_equal. apply map_ext. intros i. rewrite drop_drop. reflexivity.
Qed.

(** ** [numpy.random.randint] *)

Section numpy_random.
(** The state of numpy's global generator and its raw draw. *)
Variable RngState : Type.
Variable rng_raw : RngState → Z * RngState.

(** The range of numpy's [int64], the result type of [randint]. *)
Definition int64_min : Z := - 2 ^ 63.
Definition int64_max : Z := 2 ^ 63 - 1.

(** [np.random.randint(low, high)] on scalars: numpy converts both bounds
    with [int] (so float bounds are truncated toward zero) and takes one
    from [high], to draw on the closed range [[int(low), int(high) - 1]].  It
    raises [ValueError] when the lower end is below [int64], when the upper
    end is above [int64], and when the range is empty (with the message
    "high <= 0" when the lower end is 0, as numpy 2 words it); otherwise
    every value of the range is the image of some raw draw. *)
Definition randint (low high : Q) : Rand RngState Z :=
  λ g, let lo := py_int low in
       let hi := py_int high - 1 in
       if lo <? int64_min then Raise (ValueError "low is out of bounds for int64")
       else if int64_max <? hi then Raise (ValueError "high is out of bounds for int64")
       else if hi <? lo then
         Raise (ValueError (if lo =? 0 then "high <= 0" else "low >= high"))
       else let (r, g') := rng_raw g in Ok (lo + r `mod` (hi - lo + 1), g').

Lemma randint_range low high g s g' :
  randint low high g = Ok (s, g') → py_int low <= s < py_int high.
Proof.
  unfold randint. destruct (_ <? int64_min); [discriminate |].
  destruct (int64_max <? _); [discriminate |].
  destruct (Z.ltb_spec (py_int high - 1) (py_int low)); [discriminate |].
  destruct (rng_raw g) as [r g1]. intros [= <- _].
  pose proof (Z.mod_pos_bound r (py_int high - 1 - py_int low + 1)). lia.
Qed.

Lemma randint_in_int64 low high g s g' :
  randint low high g = Ok (s, g') → int64_min <= py_int low ∧ py_int high - 1 <= int64_max.
Proof.
  unfold randint. destruct (Z.ltb_spec (py_int low) int64_min); [discriminate |].
  destruct (Z.ltb_spec int64_max (py_int high - 1)); [discriminate |]. lia.
Qed.

Lemma randint_ok low high g :
  py_int low < py_int high →
  int64_min <= py_int low → py_int high - 1 <= int64_max →
  ∃ s g', randint low high g = Ok (s, g').
Proof.
  intros H Hlo Hhi. unfold randint.
  destruct (Z.ltb_spec (py_int low) int64_min); [lia |].
  destruct (Z.ltb_spec int64_max (py_int high - 1)); [lia |].
  destruct (Z.ltb_spec (py_int high - 1) (py_int low)); [lia |].
  destruct (rng_raw g) as [r g1]. eauto.
Qed.

Lemma randint_raises low high g e :
  randint low high g = Raise e → ∃ msg, e = ValueError msg.
Proof.
  unfold randint. destruct (_ <? int64_min); [intros [= <-]; eauto |].
  destruct (int64_max <? _); [intros [= <-]; eauto |].
  destruct (_ <? py_int low); [intros [= <-]; eauto |].
  destruct (rng_raw g); discriminate.
Qed.


(** A symmetric draw [randint(-x, x + 1)] succeeds only when [x >= 0]
    and then stays within [[-x, x]]. *)
Lemma randint_symmetric_bound (x : Q) g s g' :
  randint (- x) (x + 1) g = Ok (s, g') →
  (0 <= x)%Q ∧ (- x <= inject_Z s)%Q ∧ (inject_Z s <= x)%Q.
Proof.
  intros H. apply randint_range in H. rewrite py_int_opp in H.
  destruct (Qlt_le_dec x 0) as [Hneg | Hpos].
  - exfalso. pose proof (py_int_neg_nonpos x Hneg).
    assert (py_int (x + 1) <= 0) by (apply py_int_lt_one; lra). lia.
  - rewrite py_int_succ in H by exact Hpos.
    pose proof (py_int_le_nonneg x Hpos) as Hle.
    assert (H1 : (inject_Z s <= inject_Z (py_int x))%Q) by (rewrite <- Zle_Qle; lia).
    assert (H2 : (inject_Z (- py_int x) <= inject_Z s)%Q) by (rewrite <- Zle_Qle; lia).
    rewrite inject_Z_opp in H2. repeat split; lra.
Qed.

(** A number below [2^63] truncates into [int64]. *)
Lemma py_int_below_int64 (x : Q) :
  (0 <= x)%Q → (x < inject_Z (2 ^ 63))%Q → 0 <= py_int x <= int64_max.
Proof.
  intros H0 H. pose proof (py_int_nonneg_pos x H0). pose proof (py_int_le_nonneg x H0) as Hle.
  assert (Hlt : (inject_Z (py_int x) < inject_Z (2 ^ 63))%Q) by lra.
  rewrite <- Zlt_Qlt in Hlt. unfold int64_max. lia.
Qed.

Lemma randint_symmetric_ok (x : Q) g :
  (0 <= x)%Q → (x < inject_Z (2 ^ 63))%Q → ∃ s g', randint (- x) (x + 1) g = Ok (s, g').
Proof.
  intros H Hr. pose proof (py_int_below_int64 x H Hr) as Hb.
  apply randint_ok; rewrite ?py_int_opp, ?py_int_succ by exact H;
    unfold int64_min, int64_max in *; lia.
Qed.




Lemma randint_zero g s g' : randint (- 0) (0 + 1) g = Ok (s, g') → s = 0.
Proof.
  intros H. apply randint_range in H.
  change (py_int (- 0)) with 0 in H. change (py_int (0 + 1)) with 1 in H. lia.
Qed.
End numpy_random.

(** ** [MultiBedGenerator] *)

Module MultiBed.

Inductive JitterMode : Type := Sliding | Detection | NoJitter.

(** The per-row label appended to [y]: the list of per-bed booleans, or,
    when [return_sequences] is set, the per-bed value arrays concatenated
    along the last axis. *)
Inductive RowLabel : Type :=
  | YBools (bs : list bool)
  | YSeq (vs : list Z).

Section generator.
(** Arrays handed back by the genome and signal providers. *)
Variable Arr : Type.
(** numpy's global generator. *)
Variable RngState : Type.
Variable rng_raw : RngState → Z * RngState.
(** bedtools: sort-and-merge of rows ([cat] with [postmerge=True]). *)
Variable merge_rows : list Interval → list Interval.
(** bedtools [slop -b]: the tool's chromosome sizes, the margin, the rows. *)
Variable slop_rows : option (gmap string (Z * Z)) → Q → list Interval → list Interval.
(** bedtools [shuffle -excl -noOverlapping -seed]: the chromosome sizes of
    the shuffled tool, its rows, the exclusion rows and the seed; [None]
    is the [BEDToolsError] raised when no placement is found. *)
Variable shuffle_rows :
  option (gmap string (Z * Z)) → list Interval → list Interval → Z → option (list Interval).
(** [sklearn.utils.shuffle] on a frame; it reads the global generator. *)
Variable sk_shuffle : list Interval → RngState → list Interval * RngState.
(** [BedWrapper.chroms()] and [BedWrapper.__getitem__] (module [wrapper]):
    the chromosome names of a set of rows, and the per-position annotation
    values of the rows over [chrom, start:stop]. *)
Variable bw_chroms : list Interval → list string.
Variable bw_getitem : list Interval → string → Z → Z → list Z.

(** A genome or signal provider: [provider[chrom, start:stop]]. *)
Definition Provider : Type := string → Z → Z → Arr.

Record Genome : Type := mkGenome {
  g_getitem : Provider;
  chroms_size_pybedtools : gmap string (Z * Z);
}.

(** The attributes assigned by [__init__]. *)
Record MultiBedGenerator : Type := mkGen {
  beds : list BedWrapper;
  master_bed : BedWrapper;
  genome : Genome;
  signals : list Provider;
  blacklist : option BedWrapper;
  batch_size : Z;
  epoch_i : Z;
  intervals_df_epoch_i : option (list Interval);
  window_len : Z;
  seq_len : Z;
  output_seq_len : Z;
  negatives_ratio : Z;
  return_sequences : bool;
  return_output : bool;
  jitter_mode : JitterMode;
  shuffle : bool;
  chromsizes : gmap string (Z * Z);
  negative_windows_epoch_i : option BedWrapper;
  cumulative_excl_bt : option BedTool;
}.

Definition set_epoch_i (v : Z) (s : MultiBedGenerator) : MultiBedGenerator :=
  mkGen (beds s) (master_bed s) (genome s) (signals s) (blacklist s) (batch_size s)
        v (intervals_df_epoch_i s) (window_len s) (seq_len s) (output_seq_len s)
        (negatives_ratio s) (return_sequences s) (return_output s) (jitter_mode s)
        (shuffle s) (chromsizes s) (negative_windows_epoch_i s) (cumulative_excl_bt s).

Definition set_intervals_df_epoch_i (v : option (list Interval)) (s : MultiBedGenerator) :=
  mkGen (beds s) (master_bed s) (genome s) (signals s) (blacklist s) (batch_size s)
        (epoch_i s) v (window_len s) (seq_len s) (output_seq_len s)
        (negatives_ratio s) (return_sequences s) (return_output s) (jitter_mode s)
        (shuffle s) (chromsizes s) (negative_windows_epoch_i s) (cumulative_excl_bt s).

Definition set_master_bed (v : BedWrapper) (s : MultiBedGenerator) :=
  mkGen (beds s) v (genome s) (signals s) (blacklist s) (batch_size s)
        (epoch_i s) (intervals_df_epoch_i s) (window_len s) (seq_len s) (output_seq_len s)
        (negatives_ratio s) (return_sequences s) (return_output s) (jitter_mode s)
        (shuffle s) (chromsizes s) (negative_windows_epoch_i s) (cumulative_excl_bt s).

Definition set_negative_windows_epoch_i (v : option BedWrapper) (s : MultiBedGenerator) :=
  mkGen (beds s) (master_bed s) (genome s) (signals s) (blacklist s) (batch_size s)
        (epoch_i s) (intervals_df_epoch_i s) (window_len s) (seq_len s) (output_seq_len s)
        (negatives_ratio s) (return_sequences s) (return_output s) (jitter_mode s)
        (shuffle s) (chromsizes s) v (cumulative_excl_bt s).

Definition set_cumulative_excl_bt (v : option BedTool) (s : MultiBedGenerator) :=
  mkGen (beds s) (master_bed s) (genome s) (signals s) (blacklist s) (batch_size s)
        (epoch_i s) (intervals_df_epoch_i s) (window_len s) (seq_len s) (output_seq_len s)
        (negatives_ratio s) (return_sequences s) (return_output s) (jitter_mode s)
        (shuffle s) (chromsizes s) (negative_windows_epoch_i s) v.

(** [BedTool.cat] of several tools with [postmerge=True]. *)
Definition cat_merge (tools : list BedTool) : BedTool :=
  {| bt_rows := merge_rows (concat (map bt_rows tools)); bt_chromsizes := None |}.

(** [tool.slop(b=margin)]. *)
Definition slop (margin : Q) (tool : BedTool) : BedTool :=
  {| bt_rows := slop_rows (bt_chromsizes tool) margin (bt_rows tool);
     bt_chromsizes := None |}.

(** *** [_reset_negatives] (lines 121-135)

    The branch for [negatives_ratio > 1] reads [self.bed]; the class
    assigns [beds] and [master_bed] but never [bed], so the attribute
    lookup raises before [BedTool.cat] is reached.

    For [negatives_ratio == 1] the pool is the object [master_bed] itself,
    so [set_chromsizes] on the pool's tool is a write to the master bed's
    tool. *)
Definition _reset_negatives (self : MultiBedGenerator) : result MultiBedGenerator :=
  let pool_master :=
    if 1 <? negatives_ratio self then Raise (AttributeError "bed")
    else if negatives_ratio self =? 1 then
      let w := bw_set_chromsizes (chromsizes self) (master_bed self) in Ok (w, w)
    else
      Ok (bw_set_chromsizes (chromsizes self) (BedWrapper_of_fn []), master_bed self) in
  match pool_master with
  | Raise e => Raise e
  | Ok (pool, master) =>
      let excl :=
        match jitter_mode self with
        | Sliding => slop (half (window_len self)) (bt master)
        | _ => bt master
        end in
      let excl :=
        match blacklist self with
        | Some bl => cat_merge [excl; bt bl]
        | None => excl
        end in
      Ok (set_cumulative_excl_bt (Some excl)
            (set_negative_windows_epoch_i (Some pool) (set_master_bed master self)))
  end.

(** *** [on_epoch_end] (lines 137-157) *)

(** Lines 154-157: the epoch's table. *)
Definition build_table (self : MultiBedGenerator) : Rand RngState MultiBedGenerator :=
  match negative_windows_epoch_i self with
  | None => rraise (AttributeError "df")
  | Some neg =>
      let table := df (master_bed self) ++ df neg in
      if shuffle self then
        λ g, let (table', g') := sk_shuffle table g in
             Ok (set_intervals_df_epoch_i (Some table') self, g')
      else rret (set_intervals_df_epoch_i (Some table) self)
  end.

Definition on_epoch_end (self : MultiBedGenerator) : Rand RngState MultiBedGenerator :=
  let self := set_epoch_i (epoch_i self + 1) self in
  if (0 <? epoch_i self) && negb (shuffle self) then rret self
  else
    match cumulative_excl_bt self, negative_windows_epoch_i self with
    | None, _ => rraise (AttributeError "cat")
    | Some _, None => rraise (AttributeError "bt")
    | Some excl, Some neg =>
        let excl' := cat_nomerge excl (bt neg) in
        let self := set_cumulative_excl_bt (Some excl') self in
        do seed <- randint RngState rng_raw 0 (inject_Z (2 ^ 32));
        match shuffle_rows (bt_chromsizes (bt neg)) (bt_rows (bt neg)) (bt_rows excl') seed with
        | Some rows =>
            let neg' := bw_set_chromsizes (chromsizes self) (BedWrapper_of_fn rows) in
            build_table (set_negative_windows_epoch_i (Some neg') self)
        | None =>
            (* except BEDToolsError: print(...); self._reset_negatives() *)
            match _reset_negatives self with
            | Ok self' => build_table self'
            | Raise e => rraise e
            end
        end
    end.

(** *** [__init__] (lines 11-60) *)

Record InitArgs : Type := mkArgs {
  a_beds : list BedWrapper;
  a_genome : Genome;
  a_signals : list Provider;
  a_extra : option BedWrapper;
  a_blacklist : option BedWrapper;
  a_batch_size : Z;
  a_window_len : pyval;
  a_seq_len : Z;
  a_output_seq_len : option Z;
  a_negatives_ratio : Z;
  a_return_sequences : bool;
  a_jitter_mode : pyval;
  a_return_output : bool;
  a_shuffle : bool;
}.

(** Lines 16-26: the merged positive set.  With a single bed and no
    [extra] the master bed is the object [beds[0]] itself. *)
Definition init_master_bed (beds : list BedWrapper) (extra : option BedWrapper)
  : result BedWrapper :=
  let beds_bt := map bt beds in
  let! master_bed_bt :=
    match beds_bt with
    | [b] => Ok b
    | [] => Raise TypeError
    | _ => Ok (cat_merge beds_bt)
    end in
  let master_bed_bt :=
    match extra with
    | Some e => cat_merge [master_bed_bt; bt e]
    | None => master_bed_bt
    end in
  match beds, extra with
  | [b], None => Ok b
  | _, _ => Ok (BedWrapper_of_fn (bt_rows master_bed_bt))
  end.

(** Line 34: [type(window_len) is not int or window_len < 0]. *)
Definition check_window_len (v : pyval) : result Z :=
  match v with
  | VInt w =>
      if w <? 0 then Raise (ValueError "window_len must be positive integer") else Ok w
  | _ => Raise (ValueError "window_len must be positive integer")
  end.

(** Line 37. *)
Definition check_seq_len (seq_len window_len : Z) : result unit :=
  if seq_len <=? window_len then Raise (ValueError "seq_len must be > window_len")
  else Ok ().

(** Lines 45-47: membership in [['sliding', 'detection', None]]. *)
Definition check_jitter_mode (v : pyval) : result JitterMode :=
  match v with
  | VNone => Ok NoJitter
  | VStr s =>
      if String.eqb s "sliding" then Ok Sliding
      else if String.eqb s "detection" then Ok Detection
      else Raise (ValueError "Invalid jitter mode. Expected one of: ['sliding', 'detection', None]")
  | _ => Raise (ValueError "Invalid jitter mode. Expected one of: ['sliding', 'detection', None]")
  end.

(** Lines 33-48 in order: the three validations of the constructor. *)
Definition validate (window_len : pyval) (seq_len : Z) (jitter_mode : pyval)
  : result (Z * JitterMode) :=
  let! w := check_window_len window_len in
  let! _ := check_seq_len seq_len w in
  let! jm := check_jitter_mode jitter_mode in
  Ok (w, jm).

(** Lines 53-55: [self.chromsizes[chrom] = genome_chromsizes[chrom]]. *)
Fixpoint collect_chromsizes (genome_chromsizes : gmap string (Z * Z))
    (bed_chroms : list string) (acc : gmap string (Z * Z)) : result (gmap string (Z * Z)) :=
  match bed_chroms with
  | [] => Ok acc
  | c :: rest =>
      match genome_chromsizes !! c with
      | Some size => collect_chromsizes genome_chromsizes rest (<[c := size]> acc)
      | None => Raise (KeyError c)
      end
  end.

(** Lines 15-59: the attributes as they stand after the call of
    [_reset_negatives], before the first [on_epoch_end]. *)
Definition init_state (a : InitArgs) : result MultiBedGenerator :=
  let! master0 := init_master_bed (a_beds a) (a_extra a) in
  let! cfg := validate (a_window_len a) (a_seq_len a) (a_jitter_mode a) in
  let output_seq_len := default (a_seq_len a) (a_output_seq_len a) in
  let! cs :=
    collect_chromsizes (chroms_size_pybedtools (a_genome a)) (bw_chroms (df master0)) ∅ in
  let master := bw_set_chromsizes cs master0 in
  let beds :=
    match a_beds a, a_extra a with
    | [_], None => [master]
    | _, _ => a_beds a
    end in
  let self :=
    {| beds := beds; master_bed := master; genome := a_genome a; signals := a_signals a;
       blacklist := a_blacklist a; batch_size := a_batch_size a; epoch_i := -1;
       intervals_df_epoch_i := None; window_len := cfg.1; seq_len := a_seq_len a;
       output_seq_len := output_seq_len; negatives_ratio := a_negatives_ratio a;
       return_sequences := a_return_sequences a; return_output := a_return_output a;
       jitter_mode := cfg.2; shuffle := a_shuffle a; chromsizes := cs;
       negative_windows_epoch_i := None; cumulative_excl_bt := None |} in
  _reset_negatives self.

Definition __init__ (a : InitArgs) : Rand RngState MultiBedGenerator :=
  do self <- lift_result (init_state a);
  on_epoch_end self.

(** *** [__len__] (lines 62-64) *)
Definition __len__ (self : MultiBedGenerator) : result Z :=
  match intervals_df_epoch_i self with
  | None => Raise TypeError
  | Some table =>
      let! q := py_truediv (Z.of_nat (length table)) (batch_size self) in
      Ok (py_int (inject_Z (Qceiling q)))
  end.

(** *** [__getitem__] (lines 67-119) *)

(** Lines 79-85. *)
Definition shift_size (self : MultiBedGenerator) (chrom_start chrom_end : Z) (midpt : Q) : Q :=
  match jitter_mode self with
  | Sliding =>
      let interval_len := chrom_end - chrom_start in
      Qmax (midpt - inject_Z chrom_start)%Q
           (inject_Z (py_int (half (window_len self - interval_len))))
  | Detection => half (output_seq_len self)
  | NoJitter => 0%Q
  end.

(** Lines 78-87: the jittered midpoint of a row. *)
Definition jittered_midpt (self : MultiBedGenerator) (interval : Interval) : Rand RngState Q :=
  let chrom_start := chromStart interval in
  let chrom_end := chromEnd interval in
  let midpt := half (chrom_start + chrom_end) in
  let shift := shift_size self chrom_start chrom_end midpt in
  do s <- randint RngState rng_raw (- shift) (shift + 1);
  rret (midpt + inject_Z s)%Q.

(** Lines 88-89: the window fetched from the genome and the signals. *)
Definition fetch_window (self : MultiBedGenerator) (midpt : Q) : Z * Z :=
  let start := py_int (midpt - half (seq_len self)) in
  let stop := start + seq_len self in
  (start, stop).

Definition array_sum (a : list Z) : Z := foldr Z.add 0 a.

(** Lines 97-99. *)
Definition seq_label (self : MultiBedGenerator) (chrom : string) (midpt : Q)
    (bed : BedWrapper) : list Z :=
  let start_output := py_int (midpt - half (output_seq_len self)) in
  let stop_output := start_output + output_seq_len self in
  bw_getitem (df bed) chrom start_output stop_output.

(** Lines 101-103. *)
Definition bool_label (self : MultiBedGenerator) (chrom : string) (midpt : Q)
    (bed : BedWrapper) : bool :=
  let start_window := py_int (midpt - half (window_len self)) in
  let stop_window := start_window + window_len self in
  Qle_bool (half (window_len self))
           (inject_Z (array_sum (bw_getitem (df bed) chrom start_window stop_window))).

(** Lines 93-106: the label of one row; [np.concatenate] refuses an
    empty list of arrays. *)
Definition row_label (self : MultiBedGenerator) (chrom : string) (midpt : Q)
  : result RowLabel :=
  if return_sequences self then
    match beds self with
    | [] => Raise (ValueError "need at least one array to concatenate")
    | bs => Ok (YSeq (concat (map (seq_label self chrom midpt) bs)))
    end
  else Ok (YBools (map (bool_label self chrom midpt) (beds self))).

Record LoopAcc : Type := mkAcc {
  x_genome : list Arr;
  x_signals : list (list Arr);
  y : list RowLabel;
}.

(** Lines 88-107: what one iteration appends to [x_genome], to each
    [x_signals[i]] and to [y], given the jittered midpoint. *)
Definition append_row (self : MultiBedGenerator) (interval : Interval) (midpt : Q)
    (acc : LoopAcc) : result LoopAcc :=
  let chrom := chrom interval in
  let '(start, stop) := fetch_window self midpt in
  let xg := x_genome acc ++ [g_getitem (genome self) chrom start stop] in
  let xs := zip_with (λ col sg, col ++ [sg chrom start stop]) (x_signals acc) (signals self) in
  if return_output self then
    let! label := row_label self chrom midpt in
    Ok (mkAcc xg xs (y acc ++ [label]))
  else Ok (mkAcc xg xs (y acc)).

(** Lines 75-107: one iteration of the loop over the batch rows. *)
Definition loop_body (self : MultiBedGenerator) (interval : Interval) (acc : LoopAcc)
  : Rand RngState LoopAcc :=
  do midpt <- jittered_midpt self interval;
  lift_result (append_row self interval midpt acc).

Fixpoint loop (self : MultiBedGenerator) (rows : list Interval) (acc : LoopAcc)
  : Rand RngState LoopAcc :=
  match rows with
  | [] => rret acc
  | interval :: rest => do acc' <- loop_body self interval acc; loop self rest acc'
  end.

(** The inputs of a batch: the genome array alone, or the list
    [[x_genome, signal_1, ...]] when signal tracks are configured. *)
Inductive Inputs : Type :=
  | XGenome (x : list Arr)
  | XList (xs : list (list Arr)).

(** A batch: [(x, y)] when [return_output], else [x]. *)
Definition Batch : Type := Inputs * option (list RowLabel).

(** Line 70: the rows of batch [index]. *)
Definition batch_rows (self : MultiBedGenerator) (index : Z) (table : list Interval)
  : list Interval :=
  py_slice (index * batch_size self) ((index + 1) * batch_size self) table.

Definition __getitem__ (self : MultiBedGenerator) (index : Z) : Rand RngState Batch :=
  match intervals_df_epoch_i self with
  | None => rraise TypeError
  | Some table =>
      let intervals_batch_df := batch_rows self index table in
      let acc0 := mkAcc [] (replicate (length (signals self)) []) [] in
      do acc <- loop self intervals_batch_df acc0;
      let x :=
        if (length (signals self) =? 0)%nat then XGenome (x_genome acc)
        else XList (x_genome acc :: x_signals acc) in
      if return_output self then rret (x, Some (y acc)) else rret (x, None)
  end.

(** *** Definitions used by the statements *)

(** The shift bound as the specification words it: for "sliding" the
    larger of the distance from midpoint to start and half of
    [window_len - interval length]; for "detection" [output_seq_len / 2];
    otherwise 0. *)
Definition spec_shift_bound (self : MultiBedGenerator) (interval : Interval) : Q :=
  let midpt := half (chromStart interval + chromEnd interval) in
  match jitter_mode self with
  | Sliding =>
      Qmax (midpt - inject_Z (chromStart interval))%Q
           (half (window_len self - (chromEnd interval - chromStart interval)))
  | Detection => half (output_seq_len self)
  | NoJitter => 0%Q
  end.

(** What [__getitem__] returns when the slice holds no row. *)
Definition empty_batch (self : MultiBedGenerator) : Batch :=
  (if (length (signals self) =? 0)%nat then XGenome []
   else XList ([] :: replicate (length (signals self)) []),
   if return_output self then Some [] else None).

(** [n] further calls of [on_epoch_end]. *)
Fixpoint epochs (n : nat) (self : MultiBedGenerator) : Rand RngState MultiBedGenerator :=
  match n with
  | O => rret self
  | S n' => do self' <- on_epoch_end self; epochs n' self'
  end.

(** The attributes [_reset_negatives] reads. *)
Definition sampler_inputs (self : MultiBedGenerator) :=
  (negatives_ratio self, chromsizes self, master_bed self, jitter_mode self,
   window_len self, blacklist self).

(** The states a generator goes through: zero or more calls of
    [on_epoch_end] from the state the constructor built. *)
Inductive epochs_from (self0 : MultiBedGenerator) : MultiBedGenerator → Prop :=
  | epochs_from_refl : epochs_from self0 self0
  | epochs_from_step self g self' g' :
      epochs_from self0 self →
      on_epoch_end self g = Ok (self', g') →
      epochs_from self0 self'.

Record sampler_inv (self0 self : MultiBedGenerator) : Prop := {
  inv_inputs : sampler_inputs self = sampler_inputs self0;
  inv_neg : is_Some (negative_windows_epoch_i self);
  inv_excl : is_Some (cumulative_excl_bt self);
}.

(** The attributes fixed at construction. *)
Definition same_config (s s' : MultiBedGenerator) : Prop :=
  beds s' = beds s ∧ genome s' = genome s ∧ signals s' = signals s
  ∧ blacklist s' = blacklist s ∧ batch_size s' = batch_size s
  ∧ window_len s' = window_len s ∧ seq_len s' = seq_len s
  ∧ output_seq_len s' = output_seq_len s ∧ negatives_ratio s' = negatives_ratio s
  ∧ return_sequences s' = return_sequences s ∧ return_output s' = return_output s
  ∧ jitter_mode s' = jitter_mode s ∧ shuffle s' = shuffle s
  ∧ chromsizes s' = chromsizes s.




(** What a provider returns for a row, over the window fetched at the
    jittered midpoint [m] (lines 88-92). *)
Definition fetch_at (self : MultiBedGenerator) (sg : Provider) (row : Interval) (m : Q)
  : Arr :=
  sg (chrom row) (fetch_window self m).1 (fetch_window self m).2.


(** The rows of the cumulative exclusion region of a state. *)
Definition excl_rows (self : MultiBedGenerator) : list Interval :=
  match cumulative_excl_bt self with
  | Some excl => bt_rows excl
  | None => []
  end.

(** The initial exclusion region as the specification words it, positives
    plus blacklist: the rows of the master bed, padded on both sides by
    [window_len / 2] under "sliding" jitter (lines 130-133), merged with
    the rows of the blacklist when there is one (lines 134-135). *)
Definition initial_excl_rows (self : MultiBedGenerator) : list Interval :=
  let positives :=
    match jitter_mode self with
    | Sliding => slop_rows (Some (chromsizes self)) (half (window_len self))
                           (df (master_bed self))
    | _ => df (master_bed self)
    end in
  match blacklist self with
  | Some bl => merge_rows (positives ++ df bl)
  | None => positives
  end.

(** The initial pool: the rows of the master bed when [negatives_ratio]
    is 1, no row below 1 (lines 125-128). *)
Definition initial_pool_rows (self : MultiBedGenerator) : list Interval :=
  if negatives_ratio self =? 1 then df (master_bed self) else [].

(** *** Batch indexing *)

Lemma len_ceiling (self : MultiBedGenerator) (table : list Interval) :
  0 < batch_size self →
  intervals_df_epoch_i self = Some table →
  __len__ self = Ok ((Z.of_nat (length table) + batch_size self - 1) / batch_size self).
Proof.
  intros Hbs Ht. unfold __len__, py_truediv. rewrite Ht.
  destruct (Z.eqb_spec (batch_size self) 0) as [E | _]; [lia |].
  cbn [bind_result]. now rewrite py_int_inject, Qceiling_div.
Qed.

Lemma batch_rows_take_drop (self : MultiBedGenerator) (index : Z) (table : list Interval) :
  0 < batch_size self → 0 <= index →
  batch_rows self index table
  = take (Z.to_nat (batch_size self)) (drop (Z.to_nat index * Z.to_nat (batch_size self)) table).
Proof.
  intros Hbs Hi. unfold batch_rows. rewrite py_slice_nonneg by nia.
  f_equal; [f_equal; lia | f_equal; nia].
Qed.

(** C3: with a positive [batch_size], [__len__] is the ceiling of
    table length over batch size; batch [i] holds exactly the rows
    [i*batch_size .. (i+1)*batch_size - 1] of the table (fewer in the last
    batch); and the batches [0 .. count-1], glued in order, are the
    table. *)
Theorem batches_partition_table (self : MultiBedGenerator) (table : list Interval) :
  0 < batch_size self →
  intervals_df_epoch_i self = Some table →
  let n := Z.of_nat (length table) in
  let bs := batch_size self in
  ∃ count : Z,
    __len__ self = Ok count
    ∧ n <= count * bs < n + bs
    ∧ (∀ (i : Z) (j : nat), 0 <= i < count →
         batch_rows self i table !! j
         = if decide (Z.of_nat j < bs) then table !! Z.to_nat (i * bs + Z.of_nat j) else None)
    ∧ (∀ i : Z, 0 <= i < count →
         Z.of_nat (length (batch_rows self i table)) = Z.min bs (n - i * bs))
    ∧ concat (map (λ i, batch_rows self i table) (seqZ 0 count)) = table.
Proof.
  intros Hbs Ht n bs.
  exists ((n + bs - 1) / bs).
  pose proof (ceiling_bounds n bs Hbs) as Hc.
  split; [now apply len_ceiling |]. split; [exact Hc |].
  set (count := (n + bs - 1) / bs) in *.
  split; [| split].
  - intros i j Hi. rewrite batch_rows_take_drop by lia. fold bs.
    destruct (decide (Z.of_nat j < bs)) as [Hj | Hj].
    + rewrite lookup_take_lt by lia. rewrite lookup_drop. f_equal. nia.
    + apply lookup_take_ge. lia.
  - intros i Hi. rewrite batch_rows_take_drop by lia. fold bs.
    rewrite length_take, length_drop. subst n. nia.
  - unfold seqZ. rewrite <- list_fmap_compose.
    etrans; [| apply (concat_chunks (Z.to_nat bs) table (Z.to_nat count)); subst n; nia].
    f_equal. apply list_fmap_ext. intros k i Hk. cbn.
    rewrite batch_rows_take_drop by lia. fold bs. do 2 f_equal. lia.
Qed.

(** *** Jitter *)

Lemma jittered_midpt_inv (self : MultiBedGenerator) (interval : Interval) g m g' :
  jittered_midpt self interval g = Ok (m, g') →
  let midpt := half (chromStart interval + chromEnd interval) in
  let shift := shift_size self (chromStart interval) (chromEnd interval) midpt in
  ∃ s, randint RngState rng_raw (- shift) (shift + 1) g = Ok (s, g')
       ∧ m = (midpt + inject_Z s)%Q.
Proof.
  intros H midpt shift. unfold jittered_midpt, rbind, rret in H.
  fold midpt in H. fold shift in H.
  destruct (randint RngState rng_raw (- shift) (shift + 1) g) as [[s g1] | e]; [| discriminate].
  injection H as <- <-. eauto.
Qed.

(** The shift the code draws from never exceeds the bound of the
    specification (the code truncates the second operand of the maximum). *)
Lemma shift_size_le_spec (self : MultiBedGenerator) (interval : Interval) :
  0 <= window_len self →
  let midpt := half (chromStart interval + chromEnd interval) in
  let shift := shift_size self (chromStart interval) (chromEnd interval) midpt in
  (0 <= shift)%Q → (shift <= spec_shift_bound self interval)%Q.
Proof.
  intros Hwl midpt shift Hs. subst shift. unfold shift_size, spec_shift_bound in *.
  fold midpt. destruct (jitter_mode self); [| lra | lra].
  set (a := (midpt - inject_Z (chromStart interval))%Q) in *.
  set (x := window_len self - (chromEnd interval - chromStart interval)) in *.
  destruct (Qlt_le_dec (half x) 0) as [Hneg | Hpos].
  - (* the interval is longer than the window: the first operand wins *)
    assert (Ha : (0 < a)%Q).
    { assert (Hx : x < 0).
      { rewrite Zlt_Qlt. change (inject_Z 0) with 0%Q.
        pose proof (half_mul x). lra. }
      assert (Hlen : (inject_Z (chromStart interval) < inject_Z (chromEnd interval))%Q).
      { rewrite <- Zlt_Qlt. lia. }
      pose proof (half_mul (chromStart interval + chromEnd interval)) as Hm.
      rewrite inject_Z_plus in Hm. subst a midpt. lra. }
    pose proof (py_int_neg_nonpos _ Hneg) as Ht. rewrite Zle_Qle in Ht.
    change (inject_Z 0) with 0%Q in Ht.
    eapply Qle_trans; [| apply Q.le_max_l].
    apply Q.max_lub; lra.
  - pose proof (py_int_le_nonneg _ Hpos) as Ht.
    apply Q.max_le_compat_l. exact Ht.
Qed.

Lemma spec_bound_nonneg_shift_nonneg (self : MultiBedGenerator) (interval : Interval) :
  let midpt := half (chromStart interval + chromEnd interval) in
  (0 <= spec_shift_bound self interval)%Q →
  (0 <= shift_size self (chromStart interval) (chromEnd interval) midpt)%Q.
Proof.
  intros midpt. unfold shift_size, spec_shift_bound. fold midpt.
  destruct (jitter_mode self); [| tauto | tauto].
  set (a := (midpt - inject_Z (chromStart interval))%Q).
  set (x := window_len self - (chromEnd interval - chromStart interval)).
  intros HB. destruct (Qlt_le_dec a 0) as [Ha | Ha].
  - apply Q.max_le_iff in HB. destruct HB as [HB | HB]; [lra |].
    pose proof (py_int_nonneg_pos _ HB) as Ht. rewrite Zle_Qle in Ht.
    eapply Qle_trans; [exact Ht | apply Q.le_max_r].
  - eapply Qle_trans; [exact Ha | apply Q.le_max_l].
Qed.

(** C4: the jittered midpoint of every row stays within [shift_bound]
    of the row's midpoint, for the bound of the active jitter mode; and
    the draw succeeds whenever that bound is not negative and stays below
    [2^63], the range [randint] can draw from. *)
Theorem jitter_within_shift_bound (self : MultiBedGenerator) (interval : Interval)
    (g : RngState) :
  0 <= window_len self →
  let midpt := half (chromStart interval + chromEnd interval) in
  let bound := spec_shift_bound self interval in
  (∀ m g', jittered_midpt self interval g = Ok (m, g') →
     (midpt - bound <= m)%Q ∧ (m <= midpt + bound)%Q)
  ∧ ((0 <= bound)%Q → (bound < inject_Z (2 ^ 63))%Q →
     ∃ m g', jittered_midpt self interval g = Ok (m, g')).
Proof.
  intros Hwl midpt bound. split.
  - intros m g' H. apply jittered_midpt_inv in H as (s & Hs & ->).
    apply randint_symmetric_bound in Hs as (H0 & Hlo & Hhi).
    pose proof (shift_size_le_spec self interval Hwl H0) as Hle.
    subst midpt bound. cbv zeta in Hle.
    set (sh := shift_size _ _ _ _) in *. clearbody sh.
    set (md := half _) in *. clearbody md.
    set (bd := spec_shift_bound _ _) in *. clearbody bd.
    split; lra.
  - intros HB Hr. apply spec_bound_nonneg_shift_nonneg in HB.
    pose proof (shift_size_le_spec self interval Hwl HB) as Hle. cbv zeta in Hle.
    fold bound in Hle.
    assert (Hr' : (shift_size self (chromStart interval) (chromEnd interval)
                     (half (chromStart interval + chromEnd interval))
                   < inject_Z (2 ^ 63))%Q) by (eapply Qle_lt_trans; eassumption).
    destruct (randint_symmetric_ok RngState rng_raw _ g HB Hr') as (s & g' & Hs).
    exists (midpt + inject_Z s)%Q, g'.
    unfold jittered_midpt, rbind, rret. subst midpt. cbv zeta in Hs |- *.
    now rewrite Hs.
Qed.

(** *** The loop over the rows of a batch *)

Lemma loop_body_inv (self : MultiBedGenerator) (interval : Interval) acc g acc' g' :
  loop_body self interval acc g = Ok (acc', g') →
  ∃ m, jittered_midpt self interval g = Ok (m, g')
       ∧ append_row self interval m acc = Ok acc'.
Proof.
  unfold loop_body, rbind, lift_result. intros H.
  destruct (jittered_midpt self interval g) as [[m g1] | e]; [| discriminate].
  destruct (append_row self interval m acc) as [a | e] eqn:Ha; [| discriminate].
  injection H as <- <-. eauto.
Qed.

Lemma loop_nil_rows (self : MultiBedGenerator) acc g : loop self [] acc g = Ok (acc, g).
Proof. reflexivity. Qed.

(** Only [ValueError] can come out of the loop: from the draw of the shift
    or from the concatenation of the labels. *)
Lemma append_row_raises (self : MultiBedGenerator) (interval : Interval) m acc e :
  append_row self interval m acc = Raise e → ∃ msg, e = ValueError msg.
Proof.
  unfold append_row, row_label, bind_result.
  destruct (fetch_window self m) as [start stop].
  destruct (return_output self); [| discriminate].
  destruct (return_sequences self); [| discriminate].
  destruct (beds self); [intros [= <-]; eauto | discriminate].
Qed.

Lemma jittered_midpt_raises (self : MultiBedGenerator) (interval : Interval) g e :
  jittered_midpt self interval g = Raise e → ∃ msg, e = ValueError msg.
Proof.
  unfold jittered_midpt, rbind, rret.
  destruct (randint _ _ _ _ g) as [[s g1] | e1] eqn:Hr; [discriminate |].
  intros [= <-]. eapply randint_raises, Hr.
Qed.

Lemma loop_body_raises (self : MultiBedGenerator) (interval : Interval) acc g e :
  loop_body self interval acc g = Raise e → ∃ msg, e = ValueError msg.
Proof.
  unfold loop_body, rbind, lift_result.
  destruct (jittered_midpt self interval g) as [[m g1] | e1] eqn:Hj.
  - destruct (append_row self interval m acc) as [a | e2] eqn:Ha; [discriminate |].
    intros [= <-]. eapply append_row_raises, Ha.
  - intros [= <-]. eapply jittered_midpt_raises, Hj.
Qed.

Lemma loop_raises (self : MultiBedGenerator) rows acc g e :
  loop self rows acc g = Raise e → ∃ msg, e = ValueError msg.
Proof.
  revert acc g. induction rows as [| r rows IH]; intros acc g; [discriminate |].
  cbn [loop]. unfold rbind at 1.
  destruct (loop_body self r acc g) as [[acc1 g1] | e1] eqn:Hb.
  - apply IH.
  - intros [= <-]. eapply loop_body_raises, Hb.
Qed.

(** *** Indices outside [0 .. count-1] *)

Lemma getitem_no_rows (self : MultiBedGenerator) table index g :
  intervals_df_epoch_i self = Some table →
  batch_rows self index table = [] →
  __getitem__ self index g = Ok (empty_batch self, g).
Proof.
  intros Ht Hrows. unfold __getitem__, empty_batch. rewrite Ht, Hrows.
  unfold rbind. rewrite loop_nil_rows. cbn [x_genome x_signals y].
  unfold rret. now destruct (return_output self).
Qed.

(** C8 (as the code behaves): no bounds check guards the slice.  For an
    index at or past the batch count, and for index -1, [__getitem__]
    returns an empty batch without error; and no index at all makes it
    raise [IndexError]. *)
Theorem getitem_out_of_range_no_error (self : MultiBedGenerator)
    (table : list Interval) (count : Z) :
  intervals_df_epoch_i self = Some table →
  0 < batch_size self →
  __len__ self = Ok count →
  (∀ index g, count <= index ∨ index = -1 →
     __getitem__ self index g = Ok (empty_batch self, g))
  ∧ (∀ index g, __getitem__ self index g ≠ Raise IndexError).
Proof.
  intros Ht Hbs Hlen. split.
  - intros index g Hidx. apply getitem_no_rows with table; [exact Ht |].
    rewrite (len_ceiling self table Hbs Ht) in Hlen. injection Hlen as <-.
    pose proof (ceiling_bounds (Z.of_nat (length table)) (batch_size self) Hbs) as Hceil.
    unfold batch_rows.
    destruct Hidx as [Hge | ->].
    + apply py_slice_past_end; nia.
    + replace ((-1 + 1) * batch_size self) with 0 by lia. apply py_slice_stop_zero.
  - intros index g H. unfold __getitem__ in H. rewrite Ht in H.
    unfold rbind in H.
    destruct (loop self _ _ g) as [[acc g1] | e] eqn:Hl.
    + unfold rret in H. destruct (return_output self); discriminate.
    + apply loop_raises in Hl as [msg ->]. discriminate.
Qed.

(** *** Labels *)

Lemma loop_labels (self : MultiBedGenerator) (R : Interval → RowLabel → Prop) :
  (∀ interval acc g acc' g',
     loop_body self interval acc g = Ok (acc', g') →
     ∃ lbl, y acc' = y acc ++ [lbl] ∧ R interval lbl) →
  ∀ rows acc g acc' g',
    loop self rows acc g = Ok (acc', g') →
    ∃ ys, y acc' = y acc ++ ys ∧ Forall2 R rows ys.
Proof.
  intros Hbody rows. induction rows as [| r rows IH]; intros acc g acc' g' H.
  - injection H as <- <-. exists []. split; [now rewrite app_nil_r | constructor].
  - cbn [loop] in H. unfold rbind at 1 in H.
    destruct (loop_body self r acc g) as [[acc1 g1] | e] eqn:Hb; [| discriminate].
    destruct (Hbody _ _ _ _ _ Hb) as (lbl & Hy1 & HR).
    destruct (IH _ _ _ _ H) as (ys & Hy & HF).
    exists (lbl :: ys). split; [| now constructor].
    rewrite Hy, Hy1, <- app_assoc. reflexivity.
Qed.

Lemma bool_label_iff (self : MultiBedGenerator) (c : string) (m : Q) (bed : BedWrapper) :
  let start_window := py_int (m - half (window_len self)) in
  let coverage :=
    array_sum (bw_getitem (df bed) c start_window (start_window + window_len self)) in
  bool_label self c m bed = true ↔ (half (window_len self) <= inject_Z coverage)%Q.
Proof. cbv zeta. unfold bool_label. apply Qle_bool_iff. Qed.

(** C5: with [return_output] and without [return_sequences], every
    entry of [y] is the list, over the beds, of the booleans
    "coverage summed over the [window_len] window at the jittered midpoint
    is at least [window_len / 2]"; with [window_len = 200], coverage 100
    gives true and coverage 99 gives false. *)
Theorem majority_coverage_label (self : MultiBedGenerator) (table : list Interval)
    (index : Z) (g g' : RngState) (x : Inputs) (oy : option (list RowLabel)) :
  return_output self = true →
  return_sequences self = false →
  intervals_df_epoch_i self = Some table →
  __getitem__ self index g = Ok ((x, oy), g') →
  (∃ ys, oy = Some ys ∧
     Forall2 (λ interval lbl,
                ∃ m ga gb, jittered_midpt self interval ga = Ok (m, gb) ∧
                  lbl = YBools (map (bool_label self (chrom interval) m) (beds self)))
             (batch_rows self index table) ys)
  ∧ (∀ (c : string) (m : Q) (bed : BedWrapper),
       let start_window := py_int (m - half (window_len self)) in
       let coverage :=
         array_sum (bw_getitem (df bed) c start_window (start_window + window_len self)) in
       (bool_label self c m bed = true ↔ (half (window_len self) <= inject_Z coverage)%Q)
       ∧ (window_len self = 200 → coverage = 100 → bool_label self c m bed = true)
       ∧ (window_len self = 200 → coverage = 99 → bool_label self c m bed = false)).
Proof.
  intros Hro Hrs Ht H. split.
  - unfold __getitem__ in H. rewrite Ht, Hro in H. unfold rbind in H.
    destruct (loop self _ _ g) as [[acc g1] | e] eqn:Hl; [| discriminate].
    injection H as _ <- _.
    eapply loop_labels in Hl as (ys & Hy & HF).
    + exists ys. split; [now rewrite Hy | exact HF].
    + intros interval acc0 g0 acc' g0' Hb.
      apply loop_body_inv in Hb as (m & Hj & Ha).
      unfold append_row in Ha. destruct (fetch_window self m) as [start stop].
      unfold row_label in Ha. rewrite Hro, Hrs in Ha. cbn [bind_result] in Ha.
      injection Ha as <-. cbn [y]. eauto 8.
  - intros c m bed start_window coverage. split; [apply bool_label_iff |].
    unfold bool_label. fold start_window. fold coverage.
    split; intros -> ->; reflexivity.
Qed.

(** *** No jitter *)

Lemma no_jitter_midpt (self : MultiBedGenerator) (interval : Interval) g :
  jitter_mode self = NoJitter →
  ∃ g', jittered_midpt self interval g
        = Ok ((half (chromStart interval + chromEnd interval) + inject_Z 0)%Q, g').
Proof.
  intros Hj. unfold jittered_midpt, shift_size. rewrite Hj.
  unfold rbind, rret, randint.
  change (py_int (- 0)) with 0. change (py_int (0 + 1)) with 1.
  change (1 <=? 0) with false. cbv iota.
  destruct (rng_raw g) as [r g1]. exists g1.
  now rewrite Z.sub_0_r, Z.mod_1_r.
Qed.

Lemma no_jitter_loop_value (self : MultiBedGenerator) rows :
  jitter_mode self = NoJitter →
  ∀ acc g1 g2, run_value (loop self rows acc g1) = run_value (loop self rows acc g2).
Proof.
  intros Hj. induction rows as [| r rows IH]; intros acc g1 g2; [reflexivity |].
  cbn [loop]. unfold loop_body, rbind.
  destruct (no_jitter_midpt self r g1 Hj) as [g1' ->].
  destruct (no_jitter_midpt self r g2 Hj) as [g2' ->].
  unfold lift_result.
  destruct (append_row self r _ acc) as [a | e]; [apply IH | reflexivity].
Qed.

(** C10: without jitter the drawn shift is 0 whatever the generator
    state, the window fetched for a row is a function of the row and the
    configuration alone, and two runs of [__getitem__] from any two
    generator states return the same batch. *)
Theorem no_jitter_fetch_deterministic (self : MultiBedGenerator) :
  jitter_mode self = NoJitter →
  (∀ interval g, ∃ g',
     jittered_midpt self interval g
     = Ok ((half (chromStart interval + chromEnd interval) + inject_Z 0)%Q, g'))
  ∧ (∀ interval acc g acc' g',
       loop_body self interval acc g = Ok (acc', g') →
       let start :=
         py_int (half (chromStart interval + chromEnd interval) + inject_Z 0
                 - half (seq_len self)) in
       x_genome acc'
       = x_genome acc ++ [g_getitem (genome self) (chrom interval) start (start + seq_len self)]
       ∧ x_signals acc'
         = zip_with (λ col sg, col ++ [sg (chrom interval) start (start + seq_len self)])
                    (x_signals acc) (signals self))
  ∧ (∀ index g1 g2,
       run_value (__getitem__ self index g1) = run_value (__getitem__ self index g2)).
Proof.
  intros Hj. split; [| split].
  - intros interval g. now apply no_jitter_midpt.
  - intros interval acc g acc' g' Hb start.
    apply loop_body_inv in Hb as (m & Hm & Ha).
    destruct (no_jitter_midpt self interval g Hj) as [g1 Hm'].
    rewrite Hm' in Hm. injection Hm as <- _.
    unfold append_row, fetch_window in Ha. fold start in Ha.
    destruct (return_output self).
    + destruct (row_label self _ _) as [lbl | e]; [| discriminate].
      cbn [bind_result] in Ha. injection Ha as <-. now cbn.
    + injection Ha as <-. now cbn.
  - intros index g1 g2. unfold __getitem__.
    destruct (intervals_df_epoch_i self) as [table |]; [| reflexivity].
    unfold rbind.
    pose proof (no_jitter_loop_value self (batch_rows self index table) Hj
                  (mkAcc [] (replicate (length (signals self)) []) []) g1 g2) as Hv.
    destruct (loop self _ _ g1) as [[a1 h1] | e1];
      destruct (loop self _ _ g2) as [[a2 h2] | e2]; cbn [run_value] in Hv;
      try discriminate; injection Hv as <-; [| reflexivity].
    unfold rret. now destruct (return_output self).
Qed.

(** *** Epochs without shuffling *)

Lemma set_epoch_i_same (self : MultiBedGenerator) (v : Z) :
  v = epoch_i self → set_epoch_i v self = self.
Proof. intros ->. now destruct self. Qed.

Lemma set_epoch_i_twice (self : MultiBedGenerator) (v w : Z) :
  set_epoch_i w (set_epoch_i v self) = set_epoch_i w self.
Proof. reflexivity. Qed.

Lemma on_epoch_end_no_shuffle (self : MultiBedGenerator) (g : RngState) :
  shuffle self = false → 0 <= epoch_i self →
  on_epoch_end self g = Ok (set_epoch_i (epoch_i self + 1) self, g).
Proof.
  intros Hsh He. unfold on_epoch_end. cbn [epoch_i shuffle set_epoch_i].
  rewrite Hsh. destruct (Z.ltb_spec 0 (epoch_i self + 1)); [reflexivity | lia].
Qed.

Lemma reset_negatives_frame (self r : MultiBedGenerator) :
  _reset_negatives self = Ok r →
  epoch_i r = epoch_i self ∧ shuffle r = shuffle self
  ∧ intervals_df_epoch_i r = intervals_df_epoch_i self.
Proof.
  unfold _reset_negatives.
  destruct (1 <? negatives_ratio self); [discriminate |].
  destruct (negatives_ratio self =? 1); intros [= <-]; cbn; auto.
Qed.

Lemma build_table_frame (self self' : MultiBedGenerator) (g g' : RngState) :
  build_table self g = Ok (self', g') →
  epoch_i self' = epoch_i self ∧ shuffle self' = shuffle self.
Proof.
  unfold build_table, rraise, rret.
  destruct (negative_windows_epoch_i self); [| discriminate].
  destruct (shuffle self) eqn:Hs.
  - destruct (sk_shuffle _ g). intros [= <- _]. cbn. auto.
  - intros [= <- _]. cbn. auto.
Qed.

Lemma on_epoch_end_frame (self self' : MultiBedGenerator) (g g' : RngState) :
  on_epoch_end self g = Ok (self', g') →
  epoch_i self' = epoch_i self + 1 ∧ shuffle self' = shuffle self.
Proof.
  unfold on_epoch_end.
  cbn [epoch_i shuffle set_epoch_i cumulative_excl_bt negative_windows_epoch_i].
  destruct (_ && _); [unfold rret; intros [= <- _]; cbn; auto |].
  destruct (cumulative_excl_bt self); [| discriminate].
  destruct (negative_windows_epoch_i self); [| discriminate].
  unfold rbind. destruct (randint _ _ _ _ g) as [[seed g1] | e]; [| discriminate].
  destruct (shuffle_rows _ _ _ seed).
  - intros H. apply build_table_frame in H. cbn in H. exact H.
  - destruct (_reset_negatives _) as [r |] eqn:Hr; [| discriminate].
    apply reset_negatives_frame in Hr as (He & Hs & _). cbn in He, Hs.
    intros H. apply build_table_frame in H as [-> ->]. auto.
Qed.

(** A constructed generator stands at epoch 0. *)
Lemma constructed_epoch_zero (a : InitArgs) (g g' : RngState) (self : MultiBedGenerator) :
  __init__ a g = Ok (self, g') → epoch_i self = 0 ∧ shuffle self = a_shuffle a.
Proof.
  unfold __init__, rbind, lift_result.
  destruct (init_state a) as [s0 |] eqn:H0; [| discriminate].
  intros H. apply on_epoch_end_frame in H as [-> ->].
  unfold init_state, bind_result in H0.
  destruct (init_master_bed _ _); [| discriminate].
  destruct (validate _ _ _); [| discriminate].
  destruct (collect_chromsizes _ _ _); [| discriminate].
  apply reset_negatives_frame in H0 as (-> & -> & _). cbn. auto.
Qed.

(** C6: without shuffling, a call of [on_epoch_end] after the first
    only advances the epoch counter; after any number of calls the table
    (and every other attribute) is what it was at epoch 0, in particular
    after 5. *)
Theorem no_shuffle_table_frozen (self : MultiBedGenerator) (g : RngState) :
  shuffle self = false →
  0 <= epoch_i self →
  on_epoch_end self g = Ok (set_epoch_i (epoch_i self + 1) self, g)
  ∧ (∀ n : nat, epochs n self g = Ok (set_epoch_i (epoch_i self + Z.of_nat n) self, g))
  ∧ (∃ self5, epochs 5 self g = Ok (self5, g)
              ∧ intervals_df_epoch_i self5 = intervals_df_epoch_i self
              ∧ epoch_i self5 = epoch_i self + 5).
Proof.
  intros Hsh He.
  assert (Hn : ∀ (n : nat) s, shuffle s = false → 0 <= epoch_i s →
               epochs n s g = Ok (set_epoch_i (epoch_i s + Z.of_nat n) s, g)).
  { induction n as [| n IH]; intros s Hs Hes.
    - cbn [epochs]. unfold rret. now rewrite set_epoch_i_same by lia.
    - cbn [epochs]. unfold rbind. rewrite on_epoch_end_no_shuffle by assumption.
      rewrite IH by (cbn; first [assumption | lia]).
      cbn [epoch_i set_epoch_i]. do 2 f_equal.
      unfold set_epoch_i; cbn. f_equal. lia. }
  split; [now apply on_epoch_end_no_shuffle |]. split; [intros n; now apply Hn |].
  eexists. split; [apply (Hn 5%nat); assumption |]. split; reflexivity.
Qed.

(** *** Validation in the constructor *)

Lemma check_jitter_mode_ok (v : pyval) (m : JitterMode) :
  check_jitter_mode v = Ok m ↔
  (v = VStr "sliding" ∧ m = Sliding) ∨ (v = VStr "detection" ∧ m = Detection)
  ∨ (v = VNone ∧ m = NoJitter).
Proof.
  unfold check_jitter_mode. split.
  - destruct v as [| b | z | q | s]; try discriminate.
    + intros [= <-]. auto.
    + destruct (String.eqb_spec s "sliding") as [-> | _]; [intros [= <-]; auto |].
      destruct (String.eqb_spec s "detection") as [-> | _]; [intros [= <-]; auto |].
      discriminate.
  - intros [[-> ->] | [[-> ->] | [-> ->]]]; reflexivity.
Qed.

(** The validation accepts exactly: an [int] window length that is not
    negative, a sequence length above it, and a recognised jitter mode. *)
Lemma validate_ok (window_len : pyval) (seq_len : Z) (jm : pyval) (w : Z) (m : JitterMode) :
  validate window_len seq_len jm = Ok (w, m) ↔
  window_len = VInt w ∧ 0 <= w ∧ w < seq_len ∧ check_jitter_mode jm = Ok m.
Proof.
  unfold validate, check_window_len, check_seq_len, bind_result. split.
  - destruct window_len as [| b | z | q | s]; try discriminate.
    destruct (Z.ltb_spec z 0); [discriminate |].
    destruct (Z.leb_spec seq_len z); [discriminate |].
    destruct (check_jitter_mode jm); [| discriminate].
    intros [= <- <-]. auto.
  - intros (-> & H0 & Hlt & ->).
    destruct (Z.ltb_spec w 0); [lia |].
    destruct (Z.leb_spec seq_len w); [lia | reflexivity].
Qed.

Lemma validate_raises (window_len : pyval) (seq_len : Z) (jm : pyval) (e : exn) :
  validate window_len seq_len jm = Raise e → ∃ msg, e = ValueError msg.
Proof.
  assert (Hv : ∀ msg, Raise (A := Z * JitterMode) (ValueError msg) = Raise e →
               ∃ msg', e = ValueError msg') by (intros msg [= <-]; eauto).
  unfold validate, check_window_len, check_seq_len, check_jitter_mode, bind_result.
  destruct window_len as [| b | z | q | s]; try apply Hv.
  destruct (z <? 0); [apply Hv |].
  destruct (seq_len <=? z); [apply Hv |].
  destruct jm as [| b | z' | q | s]; try apply Hv; [discriminate |].
  destruct (String.eqb s "sliding"); [discriminate |].
  destruct (String.eqb s "detection"); [discriminate | apply Hv].
Qed.

(** *** The negative pool after [_reset_negatives] *)

Lemma reset_negatives_ratio_gt_one (self : MultiBedGenerator) :
  1 < negatives_ratio self → _reset_negatives self = Raise (AttributeError "bed").
Proof.
  intros H. unfold _reset_negatives.
  destruct (Z.ltb_spec 1 (negatives_ratio self)); [reflexivity | lia].
Qed.

Lemma reset_negatives_ratio_one (self : MultiBedGenerator) :
  negatives_ratio self = 1 →
  ∃ self', _reset_negatives self = Ok self'
    ∧ ∃ pool, negative_windows_epoch_i self' = Some pool
              ∧ length (df pool) = length (df (master_bed self)).
Proof.
  intros H. unfold _reset_negatives. rewrite H. cbn.
  eexists. split; [reflexivity |]. cbn. eexists. split; reflexivity.
Qed.

Lemma reset_negatives_ratio_zero (self : MultiBedGenerator) :
  negatives_ratio self < 1 →
  ∃ self', _reset_negatives self = Ok self'
    ∧ ∃ pool, negative_windows_epoch_i self' = Some pool ∧ df pool = [].
Proof.
  intros H. unfold _reset_negatives.
  destruct (Z.ltb_spec 1 (negatives_ratio self)); [lia |].
  destruct (Z.eqb_spec (negatives_ratio self) 1); [lia |].
  eexists. split; [reflexivity |]. cbn. eexists. split; reflexivity.
Qed.

Lemma reset_negatives_ok_ratio (self self' : MultiBedGenerator) :
  _reset_negatives self = Ok self' → negatives_ratio self <= 1.
Proof.
  intros H. destruct (Z.le_gt_cases (negatives_ratio self) 1) as [| Hgt]; [assumption |].
  rewrite reset_negatives_ratio_gt_one in H by lia. discriminate.
Qed.

(** *** Exhaustion of the negative sampler *)

(** [_reset_negatives] writes the pool, the exclusion region and (through
    the alias) the master bed, from [sampler_inputs] alone. *)
Lemma reset_negatives_reads (self1 self2 r1 : MultiBedGenerator) :
  sampler_inputs self1 = sampler_inputs self2 →
  _reset_negatives self1 = Ok r1 →
  _reset_negatives self2
  = Ok (set_cumulative_excl_bt (cumulative_excl_bt r1)
          (set_negative_windows_epoch_i (negative_windows_epoch_i r1)
             (set_master_bed (master_bed r1) self2))).
Proof.
  unfold sampler_inputs. intros [= Hr Hc Hm Hj Hw Hb].
  unfold _reset_negatives. rewrite <- Hr, <- Hc, <- Hm, <- Hj, <- Hw, <- Hb.
  destruct (1 <? negatives_ratio self1); [discriminate |].
  destruct (negatives_ratio self1 =? 1); intros [= <-]; reflexivity.
Qed.

Lemma reset_negatives_idempotent (self r : MultiBedGenerator) :
  _reset_negatives self = Ok r → _reset_negatives r = Ok r.
Proof.
  destruct self. unfold _reset_negatives. cbn.
  destruct (1 <? _) eqn:E1; [discriminate |].
  destruct (_ =? 1) eqn:E2; intros [= <-]; cbn; rewrite E1, E2; reflexivity.
Qed.

Lemma reset_negatives_some (self r : MultiBedGenerator) :
  _reset_negatives self = Ok r →
  is_Some (negative_windows_epoch_i r) ∧ is_Some (cumulative_excl_bt r).
Proof.
  unfold _reset_negatives.
  destruct (1 <? negatives_ratio self); [discriminate |].
  destruct (negatives_ratio self =? 1); intros [= <-]; cbn; eauto.
Qed.

Lemma build_table_ok (self : MultiBedGenerator) (neg : BedWrapper) (g : RngState) :
  negative_windows_epoch_i self = Some neg →
  let rows := df (master_bed self) ++ df neg in
  build_table self g
  = Ok (set_intervals_df_epoch_i
          (Some (if shuffle self then (sk_shuffle rows g).1 else rows)) self,
        if shuffle self then (sk_shuffle rows g).2 else g).
Proof.
  intros Hn rows. unfold build_table. rewrite Hn. fold rows.
  destruct (shuffle self); [| reflexivity].
  now destruct (sk_shuffle rows g).
Qed.

Lemma on_epoch_end_inv (self0 self self' : MultiBedGenerator) (g g' : RngState) :
  _reset_negatives self0 = Ok self0 →
  sampler_inv self0 self →
  on_epoch_end self g = Ok (self', g') →
  sampler_inv self0 self'.
Proof.
  intros H0 [Hin [neg Hn] [excl He]]. unfold on_epoch_end.
  cbn [epoch_i shuffle set_epoch_i cumulative_excl_bt negative_windows_epoch_i].
  destruct (_ && _).
  - unfold rret. intros [= <- _]. split; cbn; eauto.
  - rewrite Hn, He. unfold rbind.
    destruct (randint _ _ _ _ g) as [[seed g1] | e]; [| discriminate].
    destruct (shuffle_rows _ _ _ seed) as [rows |].
    + erewrite build_table_ok by reflexivity. intros [= <- _]. split; cbn; eauto.
    + erewrite (reset_negatives_reads self0) by (exact H0 || exact (eq_sym Hin)).
      destruct (reset_negatives_some _ _ H0) as [[pool Hp] [ex Hx]].
      erewrite build_table_ok by (cbn; exact Hp).
      intros [= <- _]. split; cbn; eauto.
      unfold sampler_inputs in *. cbn. injection Hin as -> -> _ -> -> ->. reflexivity.
Qed.

Lemma epochs_from_inv (self0 self : MultiBedGenerator) :
  _reset_negatives self0 = Ok self0 →
  epochs_from self0 self → sampler_inv self0 self.
Proof.
  intros H0. induction 1 as [| self g self' g' _ IH Hstep].
  - destruct (reset_negatives_some _ _ H0). now split.
  - eapply on_epoch_end_inv; eauto.
Qed.

Lemma init_state_reset (a : InitArgs) (self0 : MultiBedGenerator) :
  init_state a = Ok self0 → _reset_negatives self0 = Ok self0.
Proof.
  unfold init_state, bind_result.
  destruct (init_master_bed _ _); [| discriminate].
  destruct (validate _ _ _); [| discriminate].
  destruct (collect_chromsizes _ _ _); [| discriminate].
  apply reset_negatives_idempotent.
Qed.

(** What the constructor leaves in the sampler: the exclusion region holds
    the padded positives and the blacklist, the pool the initial rows. *)
Lemma init_state_regions (a : InitArgs) (self0 : MultiBedGenerator) :
  init_state a = Ok self0 →
  excl_rows self0 = initial_excl_rows self0
  ∧ (∃ pool, negative_windows_epoch_i self0 = Some pool
             ∧ df pool = initial_pool_rows self0)
  ∧ blacklist self0 = a_blacklist a
  ∧ ∃ m0, init_master_bed (a_beds a) (a_extra a) = Ok m0
          ∧ df (master_bed self0) = df m0.
Proof.
  unfold init_state, bind_result.
  destruct (init_master_bed _ _) as [m0 |]; [| discriminate].
  destruct (validate _ _ _) as [[w jm] |]; [| discriminate].
  destruct (collect_chromsizes _ _ _) as [cs |]; [| discriminate].
  unfold _reset_negatives, excl_rows, initial_excl_rows, initial_pool_rows. cbn.
  destruct (1 <? _); [discriminate |].
  destruct (a_negatives_ratio a =? 1) eqn:Hr; intros [= <-]; cbn; rewrite ?Hr;
    (split; [destruct jm, (a_blacklist a); cbn; rewrite ?app_nil_r; reflexivity |]);
    (split; [eexists; split; reflexivity |]); (split; [reflexivity |]);
    exists m0; split; reflexivity.
Qed.

Lemma seed_draw_ok (g : RngState) :
  ∃ seed g1, randint RngState rng_raw 0 (inject_Z (2 ^ 32)) g = Ok (seed, g1).
Proof.
  apply randint_ok; rewrite ?py_int_inject; unfold int64_min, int64_max;
    change (py_int 0) with 0; lia.
Qed.

(** C2: in every state of a constructed generator, when the call of
    [on_epoch_end] reaches the shuffle and the shuffle raises the
    exhaustion error, [on_epoch_end] returns normally: the pool and the
    cumulative exclusion region are again what [_reset_negatives] built at
    construction, and the epoch table is set to the master rows followed by
    the pool rows (permuted when [shuffle] is on).  What was built at
    construction is spelled out: the region holds the positives of the
    constructor's beds, padded by half a window under "sliding" jitter, and
    the constructor's blacklist; the pool holds the positives when
    [negatives_ratio] is 1 and no row below. *)
Theorem exhaustion_recovered_locally (a : InitArgs) (self0 self : MultiBedGenerator)
    (g : RngState) :
  init_state a = Ok self0 →
  epochs_from self0 self →
  (shuffle self = true ∨ epoch_i self + 1 <= 0) →
  (∀ excl neg seed g1,
     cumulative_excl_bt self = Some excl →
     negative_windows_epoch_i self = Some neg →
     randint RngState rng_raw 0 (inject_Z (2 ^ 32)) g = Ok (seed, g1) →
     shuffle_rows (bt_chromsizes (bt neg)) (bt_rows (bt neg))
                  (bt_rows (cat_nomerge excl (bt neg))) seed = None) →
  ∃ self' g' pool seed g1,
    on_epoch_end self g = Ok (self', g')
    ∧ negative_windows_epoch_i self' = negative_windows_epoch_i self0
    ∧ cumulative_excl_bt self' = cumulative_excl_bt self0
    ∧ negative_windows_epoch_i self0 = Some pool
    ∧ randint RngState rng_raw 0 (inject_Z (2 ^ 32)) g = Ok (seed, g1)
    ∧ (let rows := df (master_bed self0) ++ df pool in
       intervals_df_epoch_i self'
       = Some (if shuffle self then (sk_shuffle rows g1).1 else rows))
    ∧ excl_rows self' = initial_excl_rows self0
    ∧ df pool = initial_pool_rows self0
    ∧ blacklist self0 = a_blacklist a
    ∧ ∃ m0, init_master_bed (a_beds a) (a_extra a) = Ok m0
            ∧ df (master_bed self0) = df m0.
Proof.
  intros Hinit Hreach Hguard Hfail.
  pose proof (init_state_reset _ _ Hinit) as H0.
  destruct (init_state_regions _ _ Hinit) as (Hex & (pool & Hp & Hpool) & Hbl & Hm0).
  destruct (epochs_from_inv _ _ H0 Hreach) as [Hin [neg Hn] [excl He]].
  destruct (seed_draw_ok g) as (seed & g1 & Hseed).
  specialize (Hfail excl neg seed g1 He Hn Hseed).
  eexists _, _, pool, seed, g1.
  unfold on_epoch_end.
  cbn [epoch_i shuffle set_epoch_i cumulative_excl_bt negative_windows_epoch_i].
  replace ((0 <? epoch_i self + 1) && negb (shuffle self)) with false.
  2:{ destruct Hguard as [-> | Hle]; [now rewrite andb_false_r |].
      destruct (Z.ltb_spec 0 (epoch_i self + 1)); [lia | reflexivity]. }
  rewrite Hn, He. unfold rbind. rewrite Hseed. cbn [bt_rows cat_nomerge] in Hfail |- *.
  rewrite Hfail.
  erewrite (reset_negatives_reads self0) by (exact H0 || exact (eq_sym Hin)).
  erewrite build_table_ok by (cbn; exact Hp).
  cbn. repeat split; try reflexivity; try assumption.
Qed.

(** *** Geometry of the fetched and labelled windows *)

Lemma inject_Z_sub (a b : Z) : (inject_Z (a - b) == inject_Z a - inject_Z b)%Q.
Proof. unfold Z.sub. rewrite inject_Z_plus, inject_Z_opp. ring. Qed.

Lemma half_diff (a b : Z) : (half a - half b == half (a - b))%Q.
Proof. rewrite !half_mul, inject_Z_sub. ring. Qed.

(** X5: the window read from the genome has exactly [seq_len] positions and,
    with at least two positions, it contains the jittered midpoint. *)
Theorem fetch_window_contains_midpoint (self : MultiBedGenerator) (midpt : Q) :
  2 <= seq_len self →
  (fetch_window self midpt).2 - (fetch_window self midpt).1 = seq_len self
  ∧ (inject_Z (fetch_window self midpt).1 <= midpt)%Q
  ∧ (midpt < inject_Z (fetch_window self midpt).2)%Q.
Proof.
  intros HL. unfold fetch_window. cbn [fst snd].
  split; [lia |].
  pose proof (py_int_within_one (midpt - half (seq_len self))) as [Hlo Hhi].
  pose proof (half_mul (seq_len self)) as Hh.
  assert (H2 : (2 <= inject_Z (seq_len self))%Q).
  { change 2%Q with (inject_Z 2). now rewrite <- Zle_Qle. }
  rewrite inject_Z_plus. split; lra.
Qed.

(** The start of a window of [len] positions taken at [midpt]. *)
Lemma window_starts_nested (midpt : Q) (inner outer : Z) :
  inner < outer →
  py_int (midpt - half outer) <= py_int (midpt - half inner)
  ∧ py_int (midpt - half inner) + inner <= py_int (midpt - half outer) + outer.
Proof.
  intros Hlt.
  set (a := (midpt - half inner)%Q). set (b := (midpt - half outer)%Q).
  assert (Hab : (a - b == half (outer - inner))%Q).
  { subst a b. rewrite <- half_diff. ring. }
  pose proof (half_mul (outer - inner)) as Hh.
  assert (Hd : (1 <= inject_Z (outer - inner))%Q).
  { change 1%Q with (inject_Z 1). rewrite <- Zle_Qle. lia. }
  split; [apply py_int_mono; lra |].
  assert (Hq : (inject_Z (py_int a) - inject_Z (py_int b) < half (outer - inner) + 1)%Q).
  { destruct (Qlt_le_dec a 0) as [Ha | Ha].
    - assert (Hb : (b <= 0)%Q) by lra. assert (Ha' : (a <= 0)%Q) by lra.
      pose proof (py_int_nonpos_ge b Hb). pose proof (py_int_nonpos_gt a Ha') as Hg.
      unfold Z.sub in Hg. rewrite inject_Z_plus, inject_Z_opp in Hg.
      change (inject_Z 1) with 1%Q in Hg. lra.
    - pose proof (py_int_le_nonneg a Ha).
      pose proof (py_int_within_one b) as [Hb1 Hb2].
      destruct (Qlt_le_dec b 0) as [Hb | Hb].
      + assert (Hb' : (b <= 0)%Q) by lra. pose proof (py_int_nonpos_ge b Hb'). lra.
      + pose proof (py_int_nonneg_lt b Hb) as Hl. rewrite inject_Z_plus in Hl.
        change (inject_Z 1) with 1%Q in Hl. lra. }
  assert (Hz : 2 * (py_int a - py_int b) < (outer - inner) + 2).
  { rewrite Zlt_Qlt, inject_Z_mult, inject_Z_plus, !inject_Z_sub.
    rewrite inject_Z_sub in Hh.
    change (inject_Z 2) with 2%Q. lra. }
  lia.
Qed.

(** X6: with [window_len < seq_len], as the constructor demands, the window
    the boolean label is computed over lies inside the window fetched from
    the genome, for every midpoint. *)
Theorem label_window_inside_fetch_window (self : MultiBedGenerator) (midpt : Q) :
  window_len self < seq_len self →
  let start_window := py_int (midpt - half (window_len self)) in
  let stop_window := start_window + window_len self in
  (fetch_window self midpt).1 <= start_window
  ∧ stop_window <= (fetch_window self midpt).2
  ∧ ∀ (c : string) (bed : BedWrapper),
      bool_label self c midpt bed
      = Qle_bool (half (window_len self))
          (inject_Z (array_sum (bw_getitem (df bed) c start_window stop_window))).
Proof.
  intros Hlt start_window stop_window. unfold fetch_window. cbn [fst snd].
  destruct (window_starts_nested midpt (window_len self) (seq_len self) Hlt) as [H1 H2].
  repeat split; [exact H1 | exact H2].
Qed.

(** *** When the draw of the shift raises *)


(** *** Shape of a batch *)

Lemma append_row_shape (self : MultiBedGenerator) (interval : Interval) (m : Q)
    (acc acc' : LoopAcc) (k : nat) :
  append_row self interval m acc = Ok acc' →
  length (x_signals acc) = length (signals self) →
  Forall (λ col, length col = k) (x_signals acc) →
  length (x_genome acc') = S (length (x_genome acc))
  ∧ length (x_signals acc') = length (signals self)
  ∧ Forall (λ col, length col = S k) (x_signals acc')
  ∧ length (y acc') = if return_output self then S (length (y acc)) else length (y acc).
Proof.
  unfold append_row. destruct (fetch_window self m) as [start stop].
  intros H Hlen Hcols.
  assert (Hshape :
    length (zip_with (λ col sg, col ++ [sg (chrom interval) start stop])
                     (x_signals acc) (signals self)) = length (signals self)
    ∧ Forall (λ col, length col = S k)
        (zip_with (λ col sg, col ++ [sg (chrom interval) start stop])
                  (x_signals acc) (signals self))).
  { clear H. revert Hlen Hcols. generalize (signals self) as sgs.
    induction (x_signals acc) as [| col cols IH]; intros [| sg sgs] Hlen Hcols;
      try discriminate; cbn; [split; [reflexivity | constructor] |].
    inversion Hcols as [| ? ? Hc Hrest]; subst.
    destruct (IH sgs) as [IH1 IH2]; [now injection Hlen | assumption |].
    split; [now rewrite IH1 |].
    constructor; [rewrite length_app; cbn; lia | exact IH2]. }
  destruct Hshape as [Hs1 Hs2].
  destruct (return_output self).
  - destruct (row_label self _ m) as [lbl | e]; [| discriminate].
    cbn [bind_result] in H. injection H as <-. cbn [x_genome x_signals y].
    rewrite !length_app. cbn. repeat split; try assumption; lia.
  - injection H as <-. cbn [x_genome x_signals y].
    rewrite length_app. cbn. repeat split; try assumption; lia.
Qed.

Lemma loop_shape (self : MultiBedGenerator) (rows : list Interval) :
  ∀ (acc acc' : LoopAcc) (g g' : RngState) (k : nat),
    loop self rows acc g = Ok (acc', g') →
    length (x_signals acc) = length (signals self) →
    Forall (λ col, length col = k) (x_signals acc) →
    length (x_genome acc') = (length (x_genome acc) + length rows)%nat
    ∧ length (x_signals acc') = length (signals self)
    ∧ Forall (λ col, length col = (k + length rows)%nat) (x_signals acc')
    ∧ length (y acc')
      = if return_output self then (length (y acc) + length rows)%nat else length (y acc).
Proof.
  induction rows as [| r rows IH]; intros acc acc' g g' k H Hlen Hcols.
  - injection H as <- <-. rewrite !Nat.add_0_r.
    repeat split; try assumption. now destruct (return_output self).
  - cbn [loop] in H. unfold rbind at 1 in H.
    destruct (loop_body self r acc g) as [[acc1 g1] | e] eqn:Hb; [| discriminate].
    apply loop_body_inv in Hb as (m & _ & Ha).
    destruct (append_row_shape _ _ _ _ _ k Ha Hlen Hcols) as (A1 & A2 & A3 & A4).
    destruct (IH _ _ _ _ (S k) H A2 A3) as (B1 & B2 & B3 & B4).
    cbn [length]. rewrite B1, A1, B4, A4.
    repeat split; try assumption; try lia.
    + eapply Forall_impl; [exact B3 |]. cbn. intros col Hc. lia.
    + destruct (return_output self); lia.
Qed.

(** X2: whenever [__getitem__] returns, the batch has one genome array per
    row of the slice, one column per configured signal with one array per
    row, the bare genome array as [x] exactly when no signal is configured,
    and one label per row exactly when [return_output] is set. *)
Theorem getitem_batch_shape (self : MultiBedGenerator) (table : list Interval)
    (index : Z) (g g' : RngState) (x : Inputs) (oy : option (list RowLabel)) :
  intervals_df_epoch_i self = Some table →
  __getitem__ self index g = Ok ((x, oy), g') →
  let n := length (batch_rows self index table) in
  match x with
  | XGenome xg => signals self = [] ∧ length xg = n
  | XList cols =>
      signals self ≠ [] ∧ length cols = S (length (signals self))
      ∧ Forall (λ col, length col = n) cols
  end
  ∧ match oy with
    | Some ys => return_output self = true ∧ length ys = n
    | None => return_output self = false
    end.
Proof.
  intros Ht H n. unfold __getitem__ in H. rewrite Ht in H. unfold rbind in H.
  destruct (loop self _ _ g) as [[acc g1] | e] eqn:Hl; [| discriminate].
  apply (loop_shape _ _ _ _ _ _ 0%nat) in Hl as (L1 & L2 & L3 & L4);
    [| cbn; apply length_replicate
     | cbn; apply Forall_forall; intros col Hc; apply elem_of_replicate in Hc as [-> _];
       reflexivity].
  cbn [x_genome x_signals y length] in L1, L3, L4. fold n in L1, L3, L4.
  assert (Hx : x = (if (length (signals self) =? 0)%nat then XGenome (x_genome acc)
                    else XList (x_genome acc :: x_signals acc))
               ∧ oy = if return_output self then Some (y acc) else None).
  { unfold rret in H. destruct (return_output self); now injection H as <- <- _. }
  destruct Hx as [-> ->]. split.
  - destruct (signals self) as [| sg sgs] eqn:Hs; cbn [length Nat.eqb].
    + split; [reflexivity | exact L1].
    + split; [discriminate |]. split; [cbn; now rewrite L2 |].
      constructor; [exact L1 | exact L3].
  - destruct (return_output self); [split; [reflexivity | exact L4] | reflexivity].
Qed.

(** *** What [on_epoch_end] leaves alone *)

Lemma same_config_refl (s : MultiBedGenerator) : same_config s s.
Proof. repeat split. Qed.

Lemma same_config_trans (s1 s2 s3 : MultiBedGenerator) :
  same_config s1 s2 → same_config s2 s3 → same_config s1 s3.
Proof.
  unfold same_config. intros H12 H23.
  destruct H12 as (?&?&?&?&?&?&?&?&?&?&?&?&?&?).
  destruct H23 as (?&?&?&?&?&?&?&?&?&?&?&?&?&?).
  repeat split; congruence.
Qed.

Lemma reset_negatives_config (self r : MultiBedGenerator) :
  _reset_negatives self = Ok r →
  same_config self r ∧ df (master_bed r) = df (master_bed self).
Proof.
  unfold _reset_negatives.
  destruct (1 <? negatives_ratio self); [discriminate |].
  destruct (negatives_ratio self =? 1); intros [= <-]; cbn; split;
    first [apply same_config_refl | reflexivity | repeat split].
Qed.

Lemma build_table_config (self self' : MultiBedGenerator) (g g' : RngState) :
  build_table self g = Ok (self', g') →
  same_config self self' ∧ master_bed self' = master_bed self
  ∧ is_Some (intervals_df_epoch_i self').
Proof.
  unfold build_table, rraise, rret.
  destruct (negative_windows_epoch_i self); [| discriminate].
  destruct (shuffle self) eqn:Hs.
  - destruct (sk_shuffle _ g). intros [= <- _]. cbn. repeat split; eauto.
  - intros [= <- _]. cbn. repeat split; eauto.
Qed.

(** X11: a call of [on_epoch_end] that returns has changed none of the
    configured attributes and none of the positive rows; it has advanced the
    epoch counter by one, and a table, once set, stays set. *)
Theorem on_epoch_end_keeps_configuration (self self' : MultiBedGenerator)
    (g g' : RngState) :
  on_epoch_end self g = Ok (self', g') →
  same_config self self'
  ∧ epoch_i self' = epoch_i self + 1
  ∧ df (master_bed self') = df (master_bed self)
  ∧ (is_Some (intervals_df_epoch_i self) → is_Some (intervals_df_epoch_i self')).
Proof.
  intros H. pose proof (on_epoch_end_frame _ _ _ _ H) as [He _].
  revert H. unfold on_epoch_end.
  cbn [epoch_i shuffle set_epoch_i cumulative_excl_bt negative_windows_epoch_i].
  destruct (_ && _).
  { unfold rret. intros [= <- _]. cbn. repeat split; auto. }
  destruct (cumulative_excl_bt self); [| discriminate].
  destruct (negative_windows_epoch_i self); [| discriminate].
  unfold rbind. destruct (randint _ _ _ _ g) as [[seed g1] | e]; [| discriminate].
  destruct (shuffle_rows _ _ _ seed).
  - intros H. apply build_table_config in H as (Hc & Hm & Ht).
    cbn in Hc, Hm. rewrite Hm. repeat split; auto; apply Hc.
  - destruct (_reset_negatives _) as [r |] eqn:Hr; [| discriminate].
    apply reset_negatives_config in Hr as [Hc1 Hm1].
    intros H. apply build_table_config in H as (Hc2 & Hm2 & Ht).
    pose proof (same_config_trans _ _ _ Hc1 Hc2) as Hc. cbn in Hc, Hm1.
    rewrite Hm2, Hm1. repeat split; auto; apply Hc.
Qed.

Lemma on_epoch_end_config (self self' : MultiBedGenerator) (g g' : RngState) :
  on_epoch_end self g = Ok (self', g') →
  same_config self self'
  ∧ (is_Some (intervals_df_epoch_i self) → is_Some (intervals_df_epoch_i self')).
Proof.
  unfold on_epoch_end.
  cbn [epoch_i shuffle set_epoch_i cumulative_excl_bt negative_windows_epoch_i].
  destruct (_ && _).
  { unfold rret. intros [= <- _]. cbn. repeat split; auto. }
  destruct (cumulative_excl_bt self); [| discriminate].
  destruct (negative_windows_epoch_i self); [| discriminate].
  unfold rbind. destruct (randint _ _ _ _ g) as [[seed g1] | e]; [| discriminate].
  destruct (shuffle_rows _ _ _ seed).
  - intros H. apply build_table_config in H as (Hc & _ & Ht). split; [exact Hc | auto].
  - destruct (_reset_negatives _) as [r |] eqn:Hr; [| discriminate].
    apply reset_negatives_config in Hr as [Hc1 _].
    intros H. apply build_table_config in H as (Hc2 & _ & Ht).
    split; [exact (same_config_trans _ _ _ Hc1 Hc2) | auto].
Qed.



(** *** Constructed generators *)

Lemma init_master_bed_nonempty (bs : list BedWrapper) (extra : option BedWrapper)
    (w : BedWrapper) :
  init_master_bed bs extra = Ok w → bs ≠ [].
Proof. destruct bs; [discriminate | discriminate]. Qed.

Lemma init_state_invariants (a : InitArgs) (self0 : MultiBedGenerator) :
  init_state a = Ok self0 →
  epoch_i self0 = -1
  ∧ a_window_len a = VInt (window_len self0)
  ∧ 0 <= window_len self0 < seq_len self0
  ∧ seq_len self0 = a_seq_len a
  ∧ output_seq_len self0 = default (a_seq_len a) (a_output_seq_len a)
  ∧ negatives_ratio self0 <= 1
  ∧ beds self0 ≠ []
  ∧ batch_size self0 = a_batch_size a
  ∧ bt_chromsizes (bt (master_bed self0)) = Some (chromsizes self0).
Proof.
  unfold init_state, bind_result.
  destruct (init_master_bed _ _) as [m0 |] eqn:Hm; [| discriminate].
  destruct (validate _ _ _) as [[w jm] |] eqn:Hv; [| discriminate].
  destruct (collect_chromsizes _ _ _) as [cs |]; [| discriminate].
  apply validate_ok in Hv as (Hw & H0 & Hlt & _).
  apply init_master_bed_nonempty in Hm.
  intros H. pose proof (reset_negatives_ok_ratio _ _ H) as Hr. cbn in Hr.
  revert H. unfold _reset_negatives. cbn.
  destruct (1 <? _); [discriminate |].
  assert (Hb : match a_beds a, a_extra a with
               | [_], None => [bw_set_chromsizes cs m0]
               | _, _ => a_beds a
               end ≠ []).
  { destruct (a_beds a) as [| b [| b' bs]]; [done | | done].
    destruct (a_extra a); discriminate. }
  destruct (_ =? 1); intros [= <-]; cbn; repeat split; auto; lia.
Qed.

Lemma first_epoch_sets_table (s0 self : MultiBedGenerator) (g g' : RngState) :
  epoch_i s0 = -1 →
  on_epoch_end s0 g = Ok (self, g') → is_Some (intervals_df_epoch_i self).
Proof.
  intros E. unfold on_epoch_end.
  cbn [epoch_i shuffle set_epoch_i cumulative_excl_bt negative_windows_epoch_i].
  rewrite E. change (0 <? -1 + 1) with false. cbn [andb].
  destruct (cumulative_excl_bt s0); [| discriminate].
  destruct (negative_windows_epoch_i s0); [| discriminate].
  unfold rbind. destruct (randint _ _ _ _ g) as [[seed g1] | e]; [| discriminate].
  destruct (shuffle_rows _ _ _ seed).
  - intros H. now apply build_table_config in H.
  - destruct (_reset_negatives _); [| discriminate].
    intros H. now apply build_table_config in H.
Qed.

(** X8: what holds of every generator the constructor returns: it stands at
    epoch 0 with its table set; [window_len] is the [int] that was passed,
    not negative and below [seq_len]; [output_seq_len] is the argument or,
    by default, [seq_len]; [negatives_ratio] is at most 1; and there is at
    least one bed. *)
Theorem constructed_generator_invariants (a : InitArgs) (g g' : RngState)
    (self : MultiBedGenerator) :
  __init__ a g = Ok (self, g') →
  epoch_i self = 0
  ∧ is_Some (intervals_df_epoch_i self)
  ∧ a_window_len a = VInt (window_len self)
  ∧ 0 <= window_len self < seq_len self
  ∧ output_seq_len self = default (a_seq_len a) (a_output_seq_len a)
  ∧ negatives_ratio self <= 1
  ∧ beds self ≠ []
  ∧ batch_size self = a_batch_size a.
Proof.
  unfold __init__, rbind, lift_result.
  destruct (init_state a) as [s0 |] eqn:H0; [| discriminate].
  apply init_state_invariants in H0 as (E & W & R & S & O & N & B & Bs & _).
  intros H. pose proof (on_epoch_end_frame _ _ _ _ H) as [He _].
  pose proof (first_epoch_sets_table _ _ _ _ E H) as Ht.
  apply on_epoch_end_config in H as [Hc _].
  destruct Hc as (Hb & _ & _ & _ & Hbs & Hw & Hs & Ho & Hn & _).
  rewrite He, E, Hw, Hs, Ho, Hn, Hb, Hbs. repeat split; auto; lia.
Qed.

(** *** Batches that cannot raise *)

Lemma shift_size_nonneg (self : MultiBedGenerator) (interval : Interval) :
  0 <= window_len self →
  (jitter_mode self = Detection → 0 <= output_seq_len self) →
  (0 <= shift_size self (chromStart interval) (chromEnd interval)
          (half (chromStart interval + chromEnd interval)))%Q.
Proof.
  intros Hw Hd. unfold shift_size. destruct (jitter_mode self).
  - set (s := chromStart interval). set (e := chromEnd interval).
    pose proof (half_mul (s + e)) as Hm. rewrite inject_Z_plus in Hm.
    destruct (Z.le_gt_cases s e) as [Hle | Hgt].
    + rewrite Zle_Qle in Hle. eapply Qle_trans; [| apply Q.le_max_l]. lra.
    + assert (Hx : (0 <= half (window_len self - (e - s)))%Q).
      { pose proof (half_mul (window_len self - (e - s))) as Hh.
        assert (Hp : (0 <= inject_Z (window_len self - (e - s)))%Q).
        { change 0%Q with (inject_Z 0). rewrite <- Zle_Qle. lia. }
        lra. }
      pose proof (py_int_nonneg_pos _ Hx) as Ht. rewrite Zle_Qle in Ht.
      eapply Qle_trans; [exact Ht | apply Q.le_max_r].
  - specialize (Hd eq_refl). pose proof (half_mul (output_seq_len self)) as Hh.
    rewrite Zle_Qle in Hd. change (inject_Z 0) with 0%Q in Hd. lra.
  - lra.
Qed.








(** *** The sampler along the epochs *)

Lemma sampler_inv_master (self0 self : MultiBedGenerator) :
  sampler_inv self0 self → master_bed self = master_bed self0.
Proof. intros [Hin _ _]. unfold sampler_inputs in Hin. now injection Hin. Qed.

Lemma sampler_inv_ratio (self0 self : MultiBedGenerator) :
  sampler_inv self0 self → negatives_ratio self = negatives_ratio self0.
Proof. intros [Hin _ _]. unfold sampler_inputs in Hin. now injection Hin. Qed.

(** The three ways a call of [on_epoch_end] can go on a generator built by
    the constructor: the early return, a placement found, or exhaustion and
    reset. *)
Lemma on_epoch_end_cases (self0 self self' : MultiBedGenerator) (g g' : RngState) :
  _reset_negatives self0 = Ok self0 →
  sampler_inv self0 self →
  on_epoch_end self g = Ok (self', g') →
  (shuffle self = false ∧ 0 < epoch_i self + 1
   ∧ self' = set_epoch_i (epoch_i self + 1) self)
  ∨ ∃ excl neg seed g1 pool',
      cumulative_excl_bt self = Some excl
      ∧ negative_windows_epoch_i self = Some neg
      ∧ randint RngState rng_raw 0 (inject_Z (2 ^ 32)) g = Ok (seed, g1)
      ∧ negative_windows_epoch_i self' = Some pool'
      ∧ intervals_df_epoch_i self'
        = Some (if shuffle self
                then (sk_shuffle (df (master_bed self0) ++ df pool') g1).1
                else df (master_bed self0) ++ df pool')
      ∧ ((∃ rows,
            shuffle_rows (bt_chromsizes (bt neg)) (bt_rows (bt neg))
                         (bt_rows excl ++ bt_rows (bt neg)) seed = Some rows
            ∧ df pool' = rows
            ∧ cumulative_excl_bt self' = Some (cat_nomerge excl (bt neg)))
         ∨ (shuffle_rows (bt_chromsizes (bt neg)) (bt_rows (bt neg))
                         (bt_rows excl ++ bt_rows (bt neg)) seed = None
            ∧ negative_windows_epoch_i self' = negative_windows_epoch_i self0
            ∧ cumulative_excl_bt self' = cumulative_excl_bt self0)).
Proof.
  intros H0 Hinv. pose proof (sampler_inv_master _ _ Hinv) as Hm.
  destruct Hinv as [Hin [neg Hn] [excl He]]. unfold on_epoch_end.
  cbn [epoch_i shuffle set_epoch_i cumulative_excl_bt negative_windows_epoch_i].
  destruct ((0 <? epoch_i self + 1) && negb (shuffle self)) eqn:Hguard.
  { apply andb_prop in Hguard as [Hlt Hsh]. apply Z.ltb_lt in Hlt.
    apply negb_true_iff in Hsh. unfold rret. intros [= <- _]. left. auto. }
  rewrite Hn, He. unfold rbind.
  destruct (randint _ _ _ _ g) as [[seed g1] | e] eqn:Hseed; [| discriminate].
  cbn [bt_rows cat_nomerge].
  destruct (shuffle_rows _ _ _ seed) as [rows |] eqn:Hshuf.
  - erewrite build_table_ok by reflexivity.
    cbn [shuffle set_negative_windows_epoch_i set_cumulative_excl_bt set_epoch_i
         master_bed].
    rewrite Hm. intros [= <- _]. right.
    eexists excl, neg, seed, g1, _. cbn.
    repeat split; try reflexivity. left. exists rows.
    repeat split; first [exact Hshuf | reflexivity].
  - erewrite (reset_negatives_reads self0) by (exact H0 || exact (eq_sym Hin)).
    destruct (reset_negatives_some _ _ H0) as [[pool Hp] _].
    erewrite build_table_ok by (cbn; exact Hp).
    cbn [shuffle set_negative_windows_epoch_i set_cumulative_excl_bt set_epoch_i
         set_master_bed master_bed].
    intros [= <- _]. right.
    eexists excl, neg, seed, g1, pool. cbn.
    repeat split; try reflexivity; try assumption. right.
    repeat split; first [exact Hshuf | reflexivity].
Qed.

Lemma on_epoch_end_excl_prefix (self0 self self' : MultiBedGenerator) (g g' : RngState) :
  _reset_negatives self0 = Ok self0 →
  sampler_inv self0 self →
  on_epoch_end self g = Ok (self', g') →
  excl_rows self' = excl_rows self
  ∨ (∃ neg, negative_windows_epoch_i self = Some neg
            ∧ excl_rows self' = excl_rows self ++ df neg)
  ∨ excl_rows self' = excl_rows self0.
Proof.
  intros H0 Hinv Hstep.
  destruct (on_epoch_end_cases _ _ _ _ _ H0 Hinv Hstep)
    as [(_ & _ & ->) | (excl & neg & seed & g1 & pool' & He & Hn & _ & _ & _ & Hcase)].
  - left. reflexivity.
  - destruct Hcase as [(rows & _ & _ & He') | (_ & _ & He')].
    + right. left. exists neg. split; [exact Hn |].
      unfold excl_rows. now rewrite He', He.
    + right. right. unfold excl_rows. now rewrite He'.
Qed.

(** X12: the exclusion region built at construction holds the positives,
    padded by half a window under sliding jitter, merged with the
    constructor's blacklist when there is one; in every state of a
    constructed generator the region still starts with those rows: an epoch
    leaves the region alone, appends the rows of the pool it replaces, or
    resets the region to those base rows. *)
Theorem exclusion_region_keeps_base (a : InitArgs) (self0 self : MultiBedGenerator) :
  init_state a = Ok self0 →
  epochs_from self0 self →
  excl_rows self0 = initial_excl_rows self0
  ∧ blacklist self0 = a_blacklist a
  ∧ (∃ extra, excl_rows self = excl_rows self0 ++ extra)
  ∧ ∀ g self' g',
      on_epoch_end self g = Ok (self', g') →
      excl_rows self' = excl_rows self
      ∨ (∃ neg, negative_windows_epoch_i self = Some neg
                ∧ excl_rows self' = excl_rows self ++ df neg)
      ∨ excl_rows self' = excl_rows self0.
Proof.
  intros Hinit Hreach. pose proof (init_state_reset _ _ Hinit) as H0.
  destruct (init_state_regions _ _ Hinit) as (Hbase & _ & Hbl & _).
  split; [exact Hbase |]. split; [exact Hbl |].
  split.
  - induction Hreach as [| s g s' g' Hr IH Hstep].
    + exists []. now rewrite app_nil_r.
    + destruct IH as [extra IH].
      pose proof (epochs_from_inv _ _ H0 Hr) as Hinv.
      destruct (on_epoch_end_excl_prefix _ _ _ _ _ H0 Hinv Hstep)
        as [-> | [(neg & _ & ->) | ->]].
      * eauto.
      * exists (extra ++ df neg). now rewrite IH, app_assoc.
      * exists []. now rewrite app_nil_r.
  - intros g self' g' Hstep.
    eapply on_epoch_end_excl_prefix; eauto using epochs_from_inv.
Qed.

(** *** The epoch table *)

Lemma epochs_from_table (self0 self : MultiBedGenerator) (table : list Interval) :
  (∀ rows g, (sk_shuffle rows g).1 ≡ₚ rows) →
  _reset_negatives self0 = Ok self0 →
  intervals_df_epoch_i self0 = None →
  epochs_from self0 self →
  intervals_df_epoch_i self = Some table →
  ∃ pool, negative_windows_epoch_i self = Some pool
          ∧ table ≡ₚ df (master_bed self0) ++ df pool.
Proof.
  intros Hperm H0 Hnone Hreach. revert table.
  induction Hreach as [| s g s' g' Hr IH Hstep]; intros table Ht.
  - congruence.
  - pose proof (epochs_from_inv _ _ H0 Hr) as Hinv.
    destruct (on_epoch_end_cases _ _ _ _ _ H0 Hinv Hstep)
      as [(_ & _ & ->) | (excl & neg & seed & g1 & pool' & _ & _ & _ & Hp & Htab & _)].
    + apply IH. exact Ht.
    + exists pool'. split; [exact Hp |]. rewrite Htab in Ht. injection Ht as <-.
      destruct (shuffle s); [apply Hperm | reflexivity].
Qed.

Lemma init_state_table_none (a : InitArgs) (self0 : MultiBedGenerator) :
  init_state a = Ok self0 → intervals_df_epoch_i self0 = None.
Proof.
  unfold init_state, bind_result.
  destruct (init_master_bed _ _); [| discriminate].
  destruct (validate _ _ _); [| discriminate].
  destruct (collect_chromsizes _ _ _); [| discriminate].
  intros H. now apply reset_negatives_frame in H as (_ & _ & ->).
Qed.

(** X13: if [sklearn.utils.shuffle] permutes the rows it is given, the epoch
    table of a constructed generator is, in every state, a permutation of
    the positive rows followed by the rows of the current negative pool; in
    particular every positive row is in every epoch's table. *)
Theorem epoch_table_is_positives_and_pool (a : InitArgs)
    (self0 self : MultiBedGenerator) (table : list Interval) :
  (∀ rows g, (sk_shuffle rows g).1 ≡ₚ rows) →
  init_state a = Ok self0 →
  epochs_from self0 self →
  intervals_df_epoch_i self = Some table →
  (∃ pool, negative_windows_epoch_i self = Some pool
           ∧ table ≡ₚ df (master_bed self) ++ df pool)
  ∧ ∀ row, row ∈ df (master_bed self) → row ∈ table.
Proof.
  intros Hperm Hinit Hreach Ht.
  pose proof (init_state_reset _ _ Hinit) as H0.
  pose proof (sampler_inv_master _ _ (epochs_from_inv _ _ H0 Hreach)) as Hm.
  destruct (epochs_from_table _ _ _ Hperm H0 (init_state_table_none _ _ Hinit) Hreach Ht)
    as (pool & Hp & Heq).
  rewrite Hm. split; [eauto |].
  intros row Hrow. rewrite Heq. apply elem_of_app. now left.
Qed.

Lemma reset_negatives_pool_length (self r : MultiBedGenerator) :
  _reset_negatives self = Ok r →
  ∃ pool, negative_windows_epoch_i r = Some pool
          ∧ length (df pool)
            = if negatives_ratio self =? 1 then length (df (master_bed r)) else 0%nat.
Proof.
  unfold _reset_negatives.
  destruct (1 <? negatives_ratio self); [discriminate |].
  destruct (negatives_ratio self =? 1); intros [= <-]; cbn; eauto.
Qed.

Lemma epochs_from_pool_length (self0 self : MultiBedGenerator) :
  (∀ cs pool excl seed rows,
     shuffle_rows cs pool excl seed = Some rows → length rows = length pool) →
  _reset_negatives self0 = Ok self0 →
  epochs_from self0 self →
  ∃ pool, negative_windows_epoch_i self = Some pool
          ∧ length (df pool)
            = if negatives_ratio self0 =? 1 then length (df (master_bed self0)) else 0%nat.
Proof.
  intros Hlen H0 Hreach.
  induction Hreach as [| s g s' g' Hr IH Hstep].
  - apply reset_negatives_pool_length. exact H0.
  - pose proof (epochs_from_inv _ _ H0 Hr) as Hinv.
    destruct IH as (pool & Hp & Hl).
    destruct (on_epoch_end_cases _ _ _ _ _ H0 Hinv Hstep)
      as [(_ & _ & ->) | (excl & neg & seed & g1 & pool' & _ & Hn & _ & Hp' & _ & Hcase)].
    + exists pool. split; [exact Hp | exact Hl].
    + destruct Hcase as [(rows & Hshuf & Hdf & _) | (_ & Hreset & _)].
      * exists pool'. split; [exact Hp' |]. rewrite Hdf.
        rewrite (Hlen _ _ _ _ _ Hshuf). rewrite Hn in Hp. injection Hp as ->. exact Hl.
      * rewrite Hreset. apply reset_negatives_pool_length. exact H0.
Qed.

(** X14: if both shuffles keep the number of rows, the epoch table of a
    constructed generator has twice as many rows as the positive set when
    [negatives_ratio] is 1 and as many when it is less, and [__len__] is the
    ceiling of that over a positive [batch_size]. *)
Theorem epoch_table_length (a : InitArgs) (self0 self : MultiBedGenerator)
    (table : list Interval) :
  (∀ rows g, (sk_shuffle rows g).1 ≡ₚ rows) →
  (∀ cs pool excl seed rows,
     shuffle_rows cs pool excl seed = Some rows → length rows = length pool) →
  init_state a = Ok self0 →
  epochs_from self0 self →
  intervals_df_epoch_i self = Some table →
  0 < batch_size self →
  let n := Z.of_nat (length (df (master_bed self))) in
  let rows := if negatives_ratio self =? 1 then 2 * n else n in
  Z.of_nat (length table) = rows
  ∧ __len__ self = Ok ((rows + batch_size self - 1) / batch_size self).
Proof.
  intros Hperm Hlen Hinit Hreach Ht Hbs n rows.
  pose proof (init_state_reset _ _ Hinit) as H0.
  pose proof (epochs_from_inv _ _ H0 Hreach) as Hinv.
  pose proof (sampler_inv_master _ _ Hinv) as Hm.
  pose proof (sampler_inv_ratio _ _ Hinv) as Hr.
  destruct (epochs_from_table _ _ _ Hperm H0 (init_state_table_none _ _ Hinit) Hreach Ht)
    as (pool & Hp & Heq).
  destruct (epochs_from_pool_length _ _ Hlen H0 Hreach) as (pool2 & Hp2 & Hl).
  rewrite Hp in Hp2. injection Hp2 as <-.
  assert (Hrows : Z.of_nat (length table) = rows).
  { rewrite Heq, length_app, Hl. subst rows n. rewrite Hm, Hr.
    destruct (negatives_ratio self0 =? 1); lia. }
  split; [exact Hrows |].
  rewrite (len_ceiling self table Hbs Ht), Hrows. reflexivity.
Qed.

(** *** Chromosome sizes of the constructed generator *)

Lemma collect_chromsizes_acc (gcs : gmap string (Z * Z)) (chroms : list string) :
  ∀ acc : gmap string (Z * Z),
    match collect_chromsizes gcs chroms acc with
    | Ok cs =>
        (∀ c, cs !! c = if decide (c ∈ chroms) then gcs !! c else acc !! c)
        ∧ Forall (λ c, is_Some (gcs !! c)) chroms
    | Raise e =>
        ∃ pre c post, chroms = pre ++ c :: post ∧ e = KeyError c ∧ gcs !! c = None
                      ∧ Forall (λ c', is_Some (gcs !! c')) pre
    end.
Proof.
  induction chroms as [| c0 rest IH]; intros acc; cbn [collect_chromsizes].
  - split; [| constructor]. intros c. destruct (decide (c ∈ [])) as [Hin |]; [| reflexivity].
    now apply elem_of_nil in Hin.
  - destruct (gcs !! c0) as [v |] eqn:Hv.
    + specialize (IH (<[c0 := v]> acc)).
      destruct (collect_chromsizes gcs rest _) as [cs | e].
      * destruct IH as [IH1 IH2]. split; [| constructor; eauto].
        intros c. rewrite IH1.
        destruct (decide (c ∈ rest)) as [Hr | Hr].
        { rewrite decide_True; [reflexivity | now apply elem_of_cons; right]. }
        destruct (decide (c = c0)) as [-> | Hne].
        { rewrite decide_True by (apply elem_of_cons; now left).
          now rewrite lookup_insert_eq. }
        rewrite decide_False.
        { now rewrite lookup_insert_ne. }
        intros [-> | Hin]%elem_of_cons; contradiction.
      * destruct IH as (pre & c & post & -> & -> & Hc & Hpre).
        exists (c0 :: pre), c, post. repeat split; auto.
    + exists [], c0, rest. repeat split; auto.
Qed.

(** X9: the chromosome sizes kept by a constructed generator are the genome's,
    restricted to the chromosomes of the positive set; every such
    chromosome has a size, and the master bed's tool carries that map. *)
Theorem constructed_chromsizes_restricted (a : InitArgs) (g g' : RngState)
    (self : MultiBedGenerator) :
  __init__ a g = Ok (self, g') →
  (∀ c, chromsizes self !! c
        = if decide (c ∈ bw_chroms (df (master_bed self)))
          then chroms_size_pybedtools (genome self) !! c else None)
  ∧ Forall (λ c, is_Some (chromsizes self !! c)) (bw_chroms (df (master_bed self)))
  ∧ bt_chromsizes (bt (master_bed self)) = Some (chromsizes self).
Proof.
  unfold __init__, rbind, lift_result.
  destruct (init_state a) as [s0 |] eqn:H0; [| discriminate].
  intros H.
  pose proof (init_state_reset _ _ H0) as Hreset.
  assert (Hreach : epochs_from s0 self) by (eapply epochs_from_step; [constructor | exact H]).
  pose proof (sampler_inv_master _ _ (epochs_from_inv _ _ Hreset Hreach)) as Hm.
  apply on_epoch_end_config in H as [(_ & Hg & _ & _ & _ & _ & _ & _ & _ & _ & _ & _ & _ & Hc) _].
  rewrite Hm, Hg, Hc. clear Hm Hg Hc Hreach Hreset.
  revert H0. unfold init_state, bind_result.
  destruct (init_master_bed _ _) as [m0 |]; [| discriminate].
  destruct (validate _ _ _) as [[w jm] |]; [| discriminate].
  pose proof (collect_chromsizes_acc (chroms_size_pybedtools (a_genome a))
                (bw_chroms (df m0)) ∅) as Hcol.
  destruct (collect_chromsizes _ _ _) as [cs |]; [| discriminate].
  destruct Hcol as [Hl Hall].
  unfold _reset_negatives. cbn.
  destruct (1 <? _); [discriminate |].
  assert (Hsome : Forall (λ c, is_Some (cs !! c)) (bw_chroms (df m0))).
  { apply Forall_forall. intros c Hin. rewrite Hl, decide_True by exact Hin.
    rewrite Forall_forall in Hall. now apply Hall. }
  destruct (_ =? 1); intros [= <-]; cbn; (split; [| split; [exact Hsome | reflexivity]]).
  all: intros c; rewrite Hl; destruct (decide _); [reflexivity | apply lookup_empty].
Qed.

(** X10: a chromosome of the positive set that the genome has no size for makes
    the constructor raise [KeyError] on the first such chromosome, once the
    beds and the configuration have been accepted. *)
Theorem constructor_missing_chromosome (a : InitArgs) (g : RngState) (m0 : BedWrapper)
    (cfg : Z * JitterMode) (pre post : list string) (c : string) :
  init_master_bed (a_beds a) (a_extra a) = Ok m0 →
  validate (a_window_len a) (a_seq_len a) (a_jitter_mode a) = Ok cfg →
  bw_chroms (df m0) = pre ++ c :: post →
  Forall (λ c', is_Some (chroms_size_pybedtools (a_genome a) !! c')) pre →
  chroms_size_pybedtools (a_genome a) !! c = None →
  __init__ a g = Raise (KeyError c).
Proof.
  intros Hm Hv Hc Hpre Hnone. unfold __init__, rbind, lift_result, init_state, bind_result.
  rewrite Hm, Hv.
  pose proof (collect_chromsizes_acc (chroms_size_pybedtools (a_genome a))
                (bw_chroms (df m0)) ∅) as Hcol.
  destruct (collect_chromsizes _ _ _) as [cs | e].
  - destruct Hcol as [_ Hall]. rewrite Hc in Hall.
    apply Forall_app in Hall as [_ Hall]. inversion Hall as [| ? ? [v Hv'] _]; subst.
    congruence.
  - destruct Hcol as (pre' & c' & post' & Heq & -> & Hc' & Hpre').
    enough (c' = c) by congruence.
    rewrite Hc in Heq. clear -Heq Hpre Hnone Hc' Hpre'.
    revert pre' Heq Hpre'. induction pre as [| p pre IH]; intros [| p' pre'] Heq Hpre'.
    + now injection Heq.
    + injection Heq as -> _. inversion Hpre' as [| ? ? [v Hv] _]; subst. congruence.
    + injection Heq as -> _. inversion Hpre as [| ? ? [v Hv] _]; subst. congruence.
    + injection Heq as -> Heq. inversion Hpre; subst. inversion Hpre'; subst. eauto.
Qed.

(** *** Batches as segments of the table *)

(** X7: whatever the index, in or out of range, negative or not, the rows of a
    batch are one contiguous run of the epoch table, and with a batch size
    that is not negative there are at most [batch_size] of them. *)
Theorem batch_is_contiguous_segment (self : MultiBedGenerator) (index : Z)
    (table : list Interval) :
  (∃ pre post, table = pre ++ batch_rows self index table ++ post)
  ∧ (0 <= batch_size self →
     Z.of_nat (length (batch_rows self index table)) <= batch_size self).
Proof.
  unfold batch_rows. split; [apply py_slice_segment |].
  intros Hbs. rewrite py_slice_length.
  pose proof (clamp_index_diff (Z.of_nat (length table)) (index * batch_size self)
                ((index + 1) * batch_size self) ltac:(lia) ltac:(lia)).
  lia.
Qed.

(** *** One midpoint per row *)

Lemma columns_snoc_app {A B} (f : B → A) (h : B → list A) (cols : list (list A))
    (sgs : list B) :
  zip_with (λ col sg, col ++ h sg) (zip_with (λ col sg, col ++ [f sg]) cols sgs) sgs
  = zip_with (λ col sg, col ++ f sg :: h sg) cols sgs.
Proof.
  revert sgs. induction cols as [| c cols IH]; intros [| s sgs]; cbn; try reflexivity.
  now rewrite IH, <- app_assoc.
Qed.

Lemma columns_app_nil {A B} (cols : list (list A)) (sgs : list B) :
  length cols = length sgs → zip_with (λ col (_ : B), col ++ []) cols sgs = cols.
Proof.
  revert sgs. induction cols as [| c cols IH]; intros [| s sgs]; cbn; try done.
  intros [= H]. now rewrite IH, app_nil_r.
Qed.

Lemma columns_from_empty {A B} (h : B → list A) (sgs : list B) :
  zip_with (λ col sg, col ++ h sg) (replicate (length sgs) []) sgs = map h sgs.
Proof. induction sgs as [| s sgs IH]; cbn; [reflexivity | now rewrite IH]. Qed.

Lemma append_row_inv (self : MultiBedGenerator) (row : Interval) (m : Q)
    (acc acc' : LoopAcc) :
  append_row self row m acc = Ok acc' →
  x_genome acc' = x_genome acc ++ [fetch_at self (g_getitem (genome self)) row m]
  ∧ x_signals acc'
    = zip_with (λ col sg, col ++ [fetch_at self sg row m]) (x_signals acc) (signals self)
  ∧ if return_output self
    then ∃ lbl, row_label self (chrom row) m = Ok lbl ∧ y acc' = y acc ++ [lbl]
    else y acc' = y acc.
Proof.
  unfold append_row, fetch_at. destruct (fetch_window self m) as [start stop].
  cbn [fst snd]. destruct (return_output self).
  - destruct (row_label self _ m) as [lbl | e]; [| discriminate].
    cbn [bind_result]. intros [= <-]. cbn. eauto.
  - intros [= <-]. cbn. auto.
Qed.

Lemma loop_trace (self : MultiBedGenerator) (rows : list Interval) :
  ∀ (acc acc' : LoopAcc) (g g' : RngState),
    loop self rows acc g = Ok (acc', g') →
    length (x_signals acc) = length (signals self) →
    ∃ ms : list Q,
      Forall2 (λ row m, ∃ ga gb, jittered_midpt self row ga = Ok (m, gb)) rows ms
      ∧ x_genome acc'
        = x_genome acc ++ zip_with (fetch_at self (g_getitem (genome self))) rows ms
      ∧ x_signals acc'
        = zip_with (λ col sg, col ++ zip_with (fetch_at self sg) rows ms)
                   (x_signals acc) (signals self)
      ∧ if return_output self
        then ∃ lbls, y acc' = y acc ++ lbls
                     ∧ Forall2 (λ rm lbl, row_label self (chrom rm.1) rm.2 = Ok lbl)
                               (zip rows ms) lbls
        else y acc' = y acc.
Proof.
  induction rows as [| r rows IH]; intros acc acc' g g' H Hlen.
  - injection H as <- <-. exists []. cbn. rewrite app_nil_r, columns_app_nil by exact Hlen.
    repeat split; [constructor |].
    destruct (return_output self); [| reflexivity].
    exists []. split; [now rewrite app_nil_r | constructor].
  - cbn [loop] in H. unfold rbind at 1 in H.
    destruct (loop_body self r acc g) as [[acc1 g1] | e] eqn:Hb; [| discriminate].
    apply loop_body_inv in Hb as (m & Hj & Ha).
    apply append_row_inv in Ha as (A1 & A2 & A3).
    destruct (IH _ _ _ _ H) as (ms & J & B1 & B2 & B3).
    { rewrite A2, length_zip_with, Hlen. apply Nat.min_id. }
    exists (m :: ms). cbn [zip_with zip fst snd].
    split; [constructor; eauto |].
    split; [now rewrite B1, A1, <- app_assoc |].
    split; [now rewrite B2, A2, columns_snoc_app |].
    destruct (return_output self); [| congruence].
    destruct A3 as (lbl & Hl & A3). destruct B3 as (lbls & B3 & F).
    exists (lbl :: lbls). split; [now rewrite B3, A3, <- app_assoc |].
    constructor; [exact Hl | exact F].
Qed.

(** X1: every array a batch holds for a row is computed from one jittered
    midpoint of that row: the genome array and each signal array are read
    over the window fetched at that midpoint, and the label is the row label
    at the same midpoint.  With [output_seq_len] equal to [seq_len] (the
    default), a sequence label is read over exactly the fetched window. *)
Theorem getitem_arrays_share_midpoint (self : MultiBedGenerator) (table : list Interval)
    (index : Z) (g g' : RngState) (x : Inputs) (oy : option (list RowLabel)) :
  intervals_df_epoch_i self = Some table →
  __getitem__ self index g = Ok ((x, oy), g') →
  let rows := batch_rows self index table in
  (∃ ms : list Q,
     Forall2 (λ row m, ∃ ga gb, jittered_midpt self row ga = Ok (m, gb)) rows ms
     ∧ x = (if (length (signals self) =? 0)%nat
            then XGenome (zip_with (fetch_at self (g_getitem (genome self))) rows ms)
            else XList (zip_with (fetch_at self (g_getitem (genome self))) rows ms
                        :: map (λ sg, zip_with (fetch_at self sg) rows ms) (signals self)))
     ∧ match oy with
       | Some ys => Forall2 (λ rm lbl, row_label self (chrom rm.1) rm.2 = Ok lbl)
                            (zip rows ms) ys
       | None => return_output self = false
       end)
  ∧ (output_seq_len self = seq_len self →
     ∀ (c : string) (m : Q) (bed : BedWrapper),
       seq_label self c m bed
       = bw_getitem (df bed) c (fetch_window self m).1 (fetch_window self m).2).
Proof.
  intros Ht H rows. split.
  - unfold __getitem__ in H. rewrite Ht in H. fold rows in H. unfold rbind in H.
    destruct (loop self rows _ g) as [[acc g1] | e] eqn:Hl; [| discriminate].
    apply loop_trace in Hl as (ms & J & L1 & L2 & L3); [| cbn; apply length_replicate].
    cbn [x_genome x_signals y app] in L1, L2, L3. rewrite columns_from_empty in L2.
    exists ms. split; [exact J |].
    unfold rret in H. destruct (return_output self).
    + injection H as <- <- _. rewrite L1, L2. split; [reflexivity |].
      destruct L3 as (lbls & -> & F). exact F.
    + injection H as <- <- _. rewrite L1, L2. split; reflexivity.
  - intros Ho c m bed. unfold seq_label, fetch_window. cbn [fst snd]. now rewrite Ho.
Qed.

End generator.

End MultiBed.

(** ** [BedGraphGenerator] *)

Module BedGraph.

(** A row of the bedgraph frame: [(chrom, start, end, value)]. *)
Record Row : Type := mkRow {
  r_chrom : string;
  r_start : Z;
  r_end : Z;
  r_value : Q;
}.

(** An entry of [y]: the row's stored value, or the track values over the
    fetch window when [return_sequences] is set. *)
Inductive Label : Type :=
  | LValue (v : Q)
  | LTrack (vs : list Q).

Section bedgraph_generator.
Variable Arr : Type.

Definition Provider : Type := string → Z → Z → Arr.

(** The bedgraph wrapper (module [wrapper]): its frame [df] and its
    [__getitem__], the per-position values over [chrom, start:stop]. *)
Record BedGraphWrapper : Type := mkWrapper {
  bg_df : list Row;
  bg_getitem : string → Z → Z → list Q;
}.

Record BedGraphGenerator : Type := mkBedGraphGen {
  bedgraph : BedGraphWrapper;
  genome : Provider;
  batch_size : Z;
  signals : list Provider;
  seq_len : option Z;
  return_sequences : bool;
  shuffle : bool;
}.

Record BgAcc : Type := mkBgAcc {
  bg_x_genome : list Arr;
  bg_x_signals : list (list Arr);
  bg_y : list Label;
}.

(** Lines 188-194: the window fetched for a row. *)
Definition row_window (self : BedGraphGenerator) (interval : Row) : Z * Z :=
  let chrom_start := r_start interval in
  let chrom_end := r_end interval in
  match seq_len self with
  | None => (chrom_start, chrom_end)
  | Some len =>
      let midpt := half (chrom_start + chrom_end) in
      let start := py_int (midpt - half len) in
      (start, start + len)
  end.

(** Lines 184-200: one iteration of the loop. *)
Definition bg_loop_body (self : BedGraphGenerator) (acc : BgAcc) (interval : Row) : BgAcc :=
  let chrom := r_chrom interval in
  let label := LValue (r_value interval) in
  let '(start, stop) := row_window self interval in
  let xg := bg_x_genome acc ++ [genome self chrom start stop] in
  let xs :=
    zip_with (λ col sg, col ++ [sg chrom start stop]) (bg_x_signals acc) (signals self) in
  let label :=
    if return_sequences self then LTrack (bg_getitem (bedgraph self) chrom start stop)
    else label in
  mkBgAcc xg xs (bg_y acc ++ [label]).

Inductive BgInputs : Type :=
  | BgGenome (x : list Arr)
  | BgList (xs : list (list Arr)).

(** Lines 176-210. *)
Definition bg_getitem_batch (self : BedGraphGenerator) (index : Z) : BgInputs * list Label :=
  let intervals_df :=
    py_slice (index * batch_size self) ((index + 1) * batch_size self) (bg_df (bedgraph self)) in
  let acc0 := mkBgAcc [] (replicate (length (signals self)) []) [] in
  let acc := fold_left (bg_loop_body self) intervals_df acc0 in
  let x :=
    if (length (signals self) =? 0)%nat then BgGenome (bg_x_genome acc)
    else BgList (bg_x_genome acc :: bg_x_signals acc) in
  (x, bg_y acc).

(** The three columns a batch is built from. *)
Definition genome_column (self : BedGraphGenerator) (rows : list Row) : list Arr :=
  map (λ r, genome self (r_chrom r) (row_window self r).1 (row_window self r).2) rows.

Definition signal_column (self : BedGraphGenerator) (rows : list Row) (sg : Provider)
  : list Arr :=
  map (λ r, sg (r_chrom r) (row_window self r).1 (row_window self r).2) rows.

Definition label_column (self : BedGraphGenerator) (rows : list Row) : list Label :=
  map (λ r, if return_sequences self
            then LTrack (bg_getitem (bedgraph self) (r_chrom r)
                           (row_window self r).1 (row_window self r).2)
            else LValue (r_value r)) rows.

Lemma zip_with_append_twice {A B} (f g : B → list A) (cols : list (list A)) (sgs : list B) :
  zip_with (λ col sg, col ++ g sg) (zip_with (λ col sg, col ++ f sg) cols sgs) sgs
  = zip_with (λ col sg, col ++ f sg ++ g sg) cols sgs.
Proof.
  revert sgs. induction cols as [| c cols IH]; intros [| s sgs]; cbn; try reflexivity.
  now rewrite IH, <- app_assoc.
Qed.

Lemma zip_with_append_nil {A B} (cols : list (list A)) (sgs : list B) :
  length cols = length sgs →
  zip_with (λ col (_ : B), col ++ []) cols sgs = cols.
Proof.
  revert sgs. induction cols as [| c cols IH]; intros [| s sgs]; cbn; try done.
  intros [= H]. now rewrite IH, app_nil_r.
Qed.

Lemma zip_with_replicate_nil {A B} (f : B → list A) (sgs : list B) :
  zip_with (λ col sg, col ++ f sg) (replicate (length sgs) []) sgs = map f sgs.
Proof. induction sgs as [| s sgs IH]; cbn; [reflexivity | now rewrite IH]. Qed.

Lemma bg_loop_columns (self : BedGraphGenerator) (rows : list Row) (acc : BgAcc) :
  length (bg_x_signals acc) = length (signals self) →
  fold_left (bg_loop_body self) rows acc
  = mkBgAcc (bg_x_genome acc ++ genome_column self rows)
            (zip_with (λ col sg, col ++ signal_column self rows sg)
                      (bg_x_signals acc) (signals self))
            (bg_y acc ++ label_column self rows).
Proof.
  revert acc. induction rows as [| r rows IH]; intros acc Hlen.
  - cbn. rewrite !app_nil_r, zip_with_append_nil by exact Hlen. now destruct acc.
  - cbn [fold_left]. rewrite IH.
    + unfold bg_loop_body. destruct (row_window self r) as [start stop] eqn:Hw.
      cbn [bg_x_genome bg_x_signals bg_y].
      rewrite (zip_with_append_twice (λ sg, [sg (r_chrom r) start stop])
                 (signal_column self rows)).
      unfold genome_column, signal_column, label_column. cbn [map].
      rewrite Hw. cbn [fst snd]. now rewrite <- !app_assoc.
    + unfold bg_loop_body. destruct (row_window self r).
      cbn [bg_x_signals]. rewrite length_zip_with, Hlen. apply Nat.min_id.
Qed.

(** C9: every row of the batch is fetched over its own [start, end)
    span when [seq_len] is [None], and otherwise over the window of exactly
    [seq_len] positions that starts at [int(midpoint - seq_len/2)]; the
    genome and every signal are read over that window, and the label is the
    row's stored value, or with [return_sequences] the track values over the
    same window. *)
Theorem bedgraph_batch_windows (self : BedGraphGenerator) (index : Z) :
  let rows :=
    py_slice (index * batch_size self) ((index + 1) * batch_size self) (bg_df (bedgraph self)) in
  bg_getitem_batch self index
  = (if (length (signals self) =? 0)%nat then BgGenome (genome_column self rows)
     else BgList (genome_column self rows :: map (signal_column self rows) (signals self)),
     label_column self rows)
  ∧ (∀ r : Row,
       match seq_len self with
       | None => row_window self r = (r_start r, r_end r)
       | Some len =>
           (row_window self r).1 = py_int (half (r_start r + r_end r) - half len)
           ∧ (row_window self r).2 - (row_window self r).1 = len
       end).
Proof.
  intros rows. split.
  - unfold bg_getitem_batch. fold rows.
    rewrite bg_loop_columns by (cbn; apply length_replicate).
    cbn [bg_x_genome bg_x_signals bg_y app].
    now rewrite zip_with_replicate_nil.
  - intros r. unfold row_window. destruct (seq_len self) as [len |]; [| reflexivity].
    cbn [fst snd]. split; [reflexivity | lia].
Qed.

(** *** [__len__] (lines 172-174) and a whole epoch of batches *)

(** [len(self.bedgraph)]: the wrapper's [__len__] (module [wrapper]). *)
Variable wrapper_len : BedGraphWrapper → Z.

Definition bg_len (self : BedGraphGenerator) : result Z :=
  let! q := py_truediv (wrapper_len (bedgraph self)) (batch_size self) in
  Ok (py_int (inject_Z (Qceiling q))).

Lemma label_column_app (self : BedGraphGenerator) (rows1 rows2 : list Row) :
  label_column self (rows1 ++ rows2) = label_column self rows1 ++ label_column self rows2.
Proof. unfold label_column. apply map_app. Qed.

Lemma label_column_concat (self : BedGraphGenerator) (chunks : list (list Row)) :
  label_column self (concat chunks) = concat (map (label_column self) chunks).
Proof.
  induction chunks as [| ch chunks IH]; [reflexivity |].
  cbn [concat map]. now rewrite label_column_app, IH.
Qed.

Lemma bg_batch_labels (self : BedGraphGenerator) (index : Z) :
  (bg_getitem_batch self index).2
  = label_column self
      (py_slice (index * batch_size self) ((index + 1) * batch_size self)
                (bg_df (bedgraph self))).
Proof.
  unfold bg_getitem_batch. cbn [snd].
  rewrite bg_loop_columns by (cbn; apply length_replicate). reflexivity.
Qed.

(** X15: when the wrapper's length is the number of rows of its frame and the
    batch size is positive, the batches [0 .. __len__ - 1] of an epoch
    return, in order and each once, the labels of all the rows of the
    frame; and any index from [__len__] on returns no label. *)
Theorem bedgraph_epoch_covers_frame (self : BedGraphGenerator) :
  wrapper_len (bedgraph self) = Z.of_nat (length (bg_df (bedgraph self))) →
  0 < batch_size self →
  ∃ count : Z,
    bg_len self = Ok count
    ∧ concat (map (λ i, (bg_getitem_batch self i).2) (seqZ 0 count))
      = label_column self (bg_df (bedgraph self))
    ∧ ∀ index, count <= index → (bg_getitem_batch self index).2 = [].
Proof.
  intros Hlen Hbs.
  set (n := Z.of_nat (length (bg_df (bedgraph self)))) in *.
  set (bs := batch_size self) in *.
  exists ((n + bs - 1) / bs).
  pose proof (ceiling_bounds n bs Hbs) as Hc.
  split; [| split].
  - unfold bg_len, py_truediv. fold bs. rewrite Hlen.
    destruct (Z.eqb_spec bs 0); [lia |].
    cbn [bind_result]. now rewrite py_int_inject, Qceiling_div.
  - rewrite <- (concat_chunks (Z.to_nat bs) (bg_df (bedgraph self))
                  (Z.to_nat ((n + bs - 1) / bs))) at 1 by (subst n; nia).
    rewrite label_column_concat, map_map. f_equal.
    unfold seqZ. rewrite <- list_fmap_compose.
    apply list_fmap_ext. intros k i Hk. unfold compose.
    rewrite bg_batch_labels. fold bs. f_equal.
    rewrite py_slice_nonneg by nia.
    f_equal; [lia | f_equal; nia].
  - intros index Hidx. rewrite bg_batch_labels. fold bs.
    rewrite py_slice_past_end; [reflexivity | fold n; nia | nia].
Qed.

End bedgraph_generator.

End BedGraph.

(** ** A concrete generator

    Collaborators simple enough to run: a counter as random generator, a
    coverage-array bed lookup, a genome that returns the coordinates it is
    asked for, and a bedtools [shuffle] that either always finds a placement
    or never does. *)

Definition demo_rng_raw (g : Z) : Z * Z := (g, g + 1).

Definition demo_merge_rows (rows : list Interval) : list Interval := rows.

Definition demo_slop_rows (_ : option (gmap string (Z * Z))) (b : Q) (rows : list Interval)
  : list Interval :=
  map (λ iv, mkInterval (chrom iv) (chromStart iv - py_int b) (chromEnd iv + py_int b)) rows.

Definition demo_shuffle_exhausted (_ : option (gmap string (Z * Z)))
    (_ _ : list Interval) (_ : Z) : option (list Interval) := None.

Definition demo_shuffle_found (_ : option (gmap string (Z * Z)))
    (pool _ : list Interval) (seed : Z) : option (list Interval) :=
  Some (map (λ iv, mkInterval (chrom iv) (chromStart iv + 2000) (chromEnd iv + 2000)) pool).

Definition demo_sk_shuffle (rows : list Interval) (g : Z) : list Interval * Z :=
  (reverse rows, g + 1).

Definition demo_bw_chroms (rows : list Interval) : list string :=
  remove_dups (map chrom rows).

(** Per-position coverage of [chrom, start:stop) by the rows. *)
Definition demo_bw_getitem (rows : list Interval) (c : string) (start stop : Z) : list Z :=
  map (λ p, if existsb (λ iv, String.eqb (chrom iv) c
                               && (chromStart iv <=? p) && (p <? chromEnd iv)) rows
            then 1 else 0)
      (seqZ start (stop - start)).

Definition demo_provider (c : string) (start stop : Z) : list Z := [start; stop].

Definition demo_genome : MultiBed.Genome (list Z) :=
  MultiBed.mkGenome (list Z) demo_provider (<["chr1" := (0, 100000)]> ∅).

Definition demo_bed : BedWrapper :=
  BedWrapper_of_fn [mkInterval "chr1" 1000 1100].

(** The end-to-end configuration of the specification: one positive
    interval chr1:1000-1100, [seq_len] 1024, [window_len] 200,
    [negatives_ratio] 1, no jitter, batches of one row. *)
Definition demo_args (window_len : pyval) (negatives_ratio : Z) (shuffle : bool)
  : MultiBed.InitArgs (list Z) :=
  MultiBed.mkArgs (list Z) [demo_bed] demo_genome [] None None 1 window_len 1024 None
                  negatives_ratio false VNone true shuffle.

Definition demo_init_state (a : MultiBed.InitArgs (list Z)) :=
  MultiBed.init_state (list Z) demo_merge_rows demo_slop_rows demo_bw_chroms a.

Definition demo_init
    (shuffle_rows : option (gmap string (Z * Z)) → list Interval → list Interval → Z
                    → option (list Interval))
    (a : MultiBed.InitArgs (list Z)) : Rand Z (MultiBed.MultiBedGenerator (list Z)) :=
  MultiBed.__init__ (list Z) Z demo_rng_raw demo_merge_rows demo_slop_rows shuffle_rows
                    demo_sk_shuffle demo_bw_chroms a.

Definition demo_on_epoch_end
    (shuffle_rows : option (gmap string (Z * Z)) → list Interval → list Interval → Z
                    → option (list Interval)) :=
  MultiBed.on_epoch_end (list Z) Z demo_rng_raw demo_merge_rows demo_slop_rows shuffle_rows
                        demo_sk_shuffle.

Definition demo_getitem :=
  MultiBed.__getitem__ (list Z) Z demo_rng_raw demo_bw_getitem.

Definition demo_chromsizes : gmap string (Z * Z) := <["chr1" := (0, 100000)]> ∅.

Definition demo_master : BedWrapper := bw_set_chromsizes demo_chromsizes demo_bed.

Definition demo_table : list Interval :=
  [mkInterval "chr1" 1000 1100; mkInterval "chr1" 3000 3100; mkInterval "chr1" 5000 5101;
   mkInterval "chr1" 7000 7050; mkInterval "chr1" 9000 9400].

(** A generator state after construction, with a given table, batch size,
    negatives ratio, jitter mode and shuffle flag. *)
Definition demo_state (table : list Interval) (batch_size negatives_ratio : Z)
    (jitter_mode : MultiBed.JitterMode) (shuffle : bool)
  : MultiBed.MultiBedGenerator (list Z) :=
  MultiBed.mkGen (list Z) [demo_master] demo_master demo_genome [] None batch_size 0
                 (Some table) 200 1024 1024 negatives_ratio false true jitter_mode shuffle
                 demo_chromsizes (Some demo_master)
                 (Some (cat_nomerge (bt demo_master) (bt demo_master))).

(** The state [init_state] builds from the arguments (the state given
    for the table otherwise, when construction raises). *)
Definition demo_state_of_init (a : MultiBed.InitArgs (list Z))
  : MultiBed.MultiBedGenerator (list Z) :=
  match demo_init_state a with
  | Ok self => self
  | Raise _ => demo_state demo_table 1 1 MultiBed.NoJitter false
  end.

(** C1, at [negatives_ratio = 2]: [_reset_negatives] raises
    [AttributeError] on the read of [self.bed] instead of building the pool
    replicated twice, and so does the constructor that calls it. *)
Theorem reset_negatives_ratio_two_raises :
  MultiBed._reset_negatives (list Z) demo_merge_rows demo_slop_rows
    (demo_state demo_table 2 2 MultiBed.Sliding true)
  = Raise (AttributeError "bed")
  ∧ demo_init_state (demo_args (VInt 200) 2 false) = Raise (AttributeError "bed")
  ∧ demo_init demo_shuffle_found (demo_args (VInt 200) 2 false) 0
    = Raise (AttributeError "bed").
Proof. repeat split; vm_compute; reflexivity. Qed.

(** C7, at [window_len = 0]: the check is [window_len < 0], so a zero
    window length passes the validation whose message asks for a positive
    integer, and the constructor returns a generator. *)
Theorem window_len_zero_accepted :
  MultiBed.check_window_len (VInt 0) = Ok 0
  ∧ MultiBed.validate (VInt 0) 1024 (VStr "sliding") = Ok (0, MultiBed.Sliding)
  ∧ is_ok (demo_init demo_shuffle_found (demo_args (VInt 0) 1 false) 0) = true.
Proof. repeat split; vm_compute; reflexivity. Qed.

(** Witness of C3: five rows in batches of two. *)
Lemma batches_partition_table_witness :
  ∃ count : Z,
    MultiBed.__len__ (list Z) (demo_state demo_table 2 1 MultiBed.NoJitter false) = Ok count
    ∧ concat (map (λ i, MultiBed.batch_rows (list Z)
                          (demo_state demo_table 2 1 MultiBed.NoJitter false) i demo_table)
                  (seqZ 0 count))
      = demo_table.
Proof.
  destruct (MultiBed.batches_partition_table (list Z)
              (demo_state demo_table 2 1 MultiBed.NoJitter false) demo_table)
    as (count & Hlen & _ & _ & _ & Hcat); [reflexivity | reflexivity |].
  exists count. split; [exact Hlen | exact Hcat].
Defined.

(** Witness of C4: the row chr1:1000-1100 under sliding jitter. *)
Lemma jitter_within_shift_bound_witness :
  (∀ m g',
     MultiBed.jittered_midpt (list Z) Z demo_rng_raw
       (demo_state demo_table 2 1 MultiBed.Sliding true) (mkInterval "chr1" 1000 1100) 7
     = Ok (m, g') →
     (half (1000 + 1100)
      - MultiBed.spec_shift_bound (list Z) (demo_state demo_table 2 1 MultiBed.Sliding true)
          (mkInterval "chr1" 1000 1100) <= m)%Q
     ∧ (m <= half (1000 + 1100)
             + MultiBed.spec_shift_bound (list Z)
                 (demo_state demo_table 2 1 MultiBed.Sliding true)
                 (mkInterval "chr1" 1000 1100))%Q)
  ∧ ∃ m g',
      MultiBed.jittered_midpt (list Z) Z demo_rng_raw
        (demo_state demo_table 2 1 MultiBed.Sliding true) (mkInterval "chr1" 1000 1100) 7
      = Ok (m, g').
Proof.
  destruct (MultiBed.jitter_within_shift_bound (list Z) Z demo_rng_raw
              (demo_state demo_table 2 1 MultiBed.Sliding true)
              (mkInterval "chr1" 1000 1100) 7) as [Hbound Hok].
  - vm_compute. discriminate.
  - split; [exact Hbound | apply Hok; vm_compute; [discriminate | reflexivity]].
Defined.

(** Witness of C5: the first batch of the end-to-end configuration. *)
Lemma majority_coverage_label_witness :
  ∃ ys, Some [MultiBed.YBools [true]] = Some ys
    ∧ Forall2 (λ interval lbl,
                 ∃ m ga gb,
                   MultiBed.jittered_midpt (list Z) Z demo_rng_raw
                     (demo_state demo_table 1 1 MultiBed.NoJitter false) interval ga
                   = Ok (m, gb)
                   ∧ lbl = MultiBed.YBools
                             (map (MultiBed.bool_label (list Z) demo_bw_getitem
                                     (demo_state demo_table 1 1 MultiBed.NoJitter false)
                                     (chrom interval) m)
                                  (MultiBed.beds (list Z)
                                     (demo_state demo_table 1 1 MultiBed.NoJitter false))))
              (MultiBed.batch_rows (list Z)
                 (demo_state demo_table 1 1 MultiBed.NoJitter false) 0 demo_table)
              ys.
Proof.
  apply (MultiBed.majority_coverage_label (list Z) Z demo_rng_raw demo_bw_getitem
           (demo_state demo_table 1 1 MultiBed.NoJitter false) demo_table 0 1 2
           (MultiBed.XGenome (list Z) [[538; 1562]]) (Some [MultiBed.YBools [true]]));
    vm_compute; reflexivity.
Defined.

(** Witness of C6: five further epochs of a generator that does not
    shuffle. *)
Lemma no_shuffle_table_frozen_witness :
  ∃ self5,
    MultiBed.epochs (list Z) Z demo_rng_raw demo_merge_rows demo_slop_rows
      demo_shuffle_found demo_sk_shuffle 5
      (demo_state demo_table 2 1 MultiBed.Sliding false) 3
    = Ok (self5, 3)
    ∧ MultiBed.intervals_df_epoch_i (list Z) self5 = Some demo_table
    ∧ MultiBed.epoch_i (list Z) self5 = 0 + 5.
Proof.
  apply (MultiBed.no_shuffle_table_frozen (list Z) Z demo_rng_raw demo_merge_rows
           demo_slop_rows demo_shuffle_found demo_sk_shuffle
           (demo_state demo_table 2 1 MultiBed.Sliding false) 3).
  - reflexivity.
  - vm_compute. discriminate.
Defined.

(** Counterexample to C8 as stated: two rows in batches of one give two
    batches; index 5 is out of range, and [__getitem__] returns an empty
    batch instead of raising. *)
Lemma getitem_out_of_range_counterexample :
  MultiBed.__len__ (list Z)
    (demo_state [mkInterval "chr1" 1000 1100; mkInterval "chr1" 3000 3100] 1 1
                MultiBed.NoJitter false)
  = Ok 2
  ∧ ¬ (0 <= 5 < 2)
  ∧ demo_getitem
      (demo_state [mkInterval "chr1" 1000 1100; mkInterval "chr1" 3000 3100] 1 1
                  MultiBed.NoJitter false) 5 1
    = Ok ((MultiBed.XGenome (list Z) [], Some []), 1)
  ∧ is_ok (demo_getitem
             (demo_state [mkInterval "chr1" 1000 1100; mkInterval "chr1" 3000 3100] 1 1
                         MultiBed.NoJitter false) (-2) 1)
    = true.
Proof. repeat split; try (vm_compute; reflexivity). lia. Qed.

(** Witness of the amended C8, on the same generator. *)
Lemma getitem_out_of_range_no_error_witness :
  (∀ index g, 2 <= index ∨ index = -1 →
     demo_getitem
       (demo_state [mkInterval "chr1" 1000 1100; mkInterval "chr1" 3000 3100] 1 1
                   MultiBed.NoJitter false) index g
     = Ok (MultiBed.empty_batch (list Z)
             (demo_state [mkInterval "chr1" 1000 1100; mkInterval "chr1" 3000 3100] 1 1
                         MultiBed.NoJitter false), g))
  ∧ (∀ index g,
       demo_getitem
         (demo_state [mkInterval "chr1" 1000 1100; mkInterval "chr1" 3000 3100] 1 1
                     MultiBed.NoJitter false) index g
       ≠ Raise IndexError).
Proof.
  apply (MultiBed.getitem_out_of_range_no_error (list Z) Z demo_rng_raw demo_bw_getitem
           (demo_state [mkInterval "chr1" 1000 1100; mkInterval "chr1" 3000 3100] 1 1
                       MultiBed.NoJitter false)
           [mkInterval "chr1" 1000 1100; mkInterval "chr1" 3000 3100] 2);
    reflexivity.
Defined.

(** Witness of C10: the generator of the end-to-end configuration, read
    from two different generator states. *)
Lemma no_jitter_fetch_deterministic_witness :
  (∃ g', MultiBed.jittered_midpt (list Z) Z demo_rng_raw
           (demo_state demo_table 2 1 MultiBed.NoJitter true)
           (mkInterval "chr1" 1000 1100) 7
         = Ok ((half (1000 + 1100) + inject_Z 0)%Q, g'))
  ∧ run_value (demo_getitem (demo_state demo_table 2 1 MultiBed.NoJitter true) 1 7)
    = run_value (demo_getitem (demo_state demo_table 2 1 MultiBed.NoJitter true) 1 99).
Proof.
  destruct (MultiBed.no_jitter_fetch_deterministic (list Z) Z demo_rng_raw demo_bw_getitem
              (demo_state demo_table 2 1 MultiBed.NoJitter true))
    as (Hshift & _ & Hsame); [reflexivity |].
  split; [apply (Hshift (mkInterval "chr1" 1000 1100) 7) | apply Hsame].
Defined.

(** The end-to-end configuration under sliding jitter, with a blacklist;
    the shuffle finds a placement while the exclusion region has at most
    three rows and is exhausted after. *)
Definition demo_blacklist : BedWrapper :=
  BedWrapper_of_fn [mkInterval "chr1" 50000 51000].

Definition demo_args_sliding : MultiBed.InitArgs (list Z) :=
  MultiBed.mkArgs (list Z) [demo_bed] demo_genome [] None (Some demo_blacklist) 1
                  (VInt 200) 1024 None 1 false (VStr "sliding") true true.

Definition demo_shuffle_once (cs : option (gmap string (Z * Z)))
    (pool excl : list Interval) (seed : Z) : option (list Interval) :=
  if (length excl <=? 3)%nat then demo_shuffle_found cs pool excl seed else None.

(** The generator constructed from those arguments at generator state 0:
    its first epoch found the pool chr1:3000-3100 and the exclusion region
    grew to three rows. *)
Definition demo_sliding_constructed : MultiBed.MultiBedGenerator (list Z) :=
  match demo_on_epoch_end demo_shuffle_once (demo_state_of_init demo_args_sliding) 0 with
  | Ok (self, _) => self
  | Raise _ => demo_state_of_init demo_args_sliding
  end.

Lemma demo_sliding_constructed_reached :
  MultiBed.epochs_from (list Z) Z demo_rng_raw demo_merge_rows demo_slop_rows
    demo_shuffle_once demo_sk_shuffle
    (demo_state_of_init demo_args_sliding) demo_sliding_constructed.
Proof.
  eapply MultiBed.epochs_from_step with (g := 0) (g' := 2); [constructor |].
  vm_compute. reflexivity.
Defined.

(** Witness of C2: the epoch after construction, where the shuffle is
    exhausted: the region of three rows is reset to the padded positive
    chr1:900-1200 and the blacklist row, the pool to the positive. *)
Lemma exhaustion_recovered_locally_witness :
  MultiBed.excl_rows (list Z) demo_sliding_constructed
  = [mkInterval "chr1" 900 1200; mkInterval "chr1" 50000 51000;
     mkInterval "chr1" 1000 1100]
  ∧ ∃ self' g',
      demo_on_epoch_end demo_shuffle_once demo_sliding_constructed 2 = Ok (self', g')
      ∧ MultiBed.excl_rows (list Z) self'
        = [mkInterval "chr1" 900 1200; mkInterval "chr1" 50000 51000]
      ∧ option_map df (MultiBed.negative_windows_epoch_i (list Z) self')
        = Some [mkInterval "chr1" 1000 1100]
      ∧ MultiBed.intervals_df_epoch_i (list Z) self'
        = Some [mkInterval "chr1" 1000 1100; mkInterval "chr1" 1000 1100].
Proof.
  split; [vm_compute; reflexivity |].
  destruct (MultiBed.exhaustion_recovered_locally (list Z) Z demo_rng_raw demo_merge_rows
              demo_slop_rows demo_shuffle_once demo_sk_shuffle demo_bw_chroms
              demo_args_sliding (demo_state_of_init demo_args_sliding)
              demo_sliding_constructed 2)
    as (self' & g' & pool & seed & g1 & Hstep & Hneg & _ & Hpool & _ & Htab & Hex & Hdf & _).
  - vm_compute. reflexivity.
  - exact demo_sliding_constructed_reached.
  - left. reflexivity.
  - intros excl neg seed g1 He Hn _.
    vm_compute in He. injection He as <-. vm_compute in Hn. injection Hn as <-.
    reflexivity.
  - exists self', g'. split; [exact Hstep |].
    split; [rewrite Hex; vm_compute; reflexivity |].
    split; [rewrite Hneg, Hpool; cbn [option_map]; rewrite Hdf; vm_compute; reflexivity |].
    cbv zeta in Htab. rewrite Htab, Hdf. vm_compute. reflexivity.
Defined.

(** ** Further concrete runs *)

(** The state and the generator state a run ended in (the given state and
    0 when the run raised). *)
Definition ok_state (r : result (MultiBed.MultiBedGenerator (list Z) * Z))
  : MultiBed.MultiBedGenerator (list Z) :=
  match r with
  | Ok (s, _) => s
  | Raise _ => demo_state demo_table 1 1 MultiBed.NoJitter false
  end.


(** The generator of the end-to-end configuration, shuffling, as
    constructed from generator state 0, and after one further epoch. *)
Definition demo_constructed : MultiBed.MultiBedGenerator (list Z) :=
  ok_state (demo_init demo_shuffle_found (demo_args (VInt 200) 1 true) 0).

Definition demo_next_epoch : MultiBed.MultiBedGenerator (list Z) :=
  ok_state (demo_on_epoch_end demo_shuffle_found demo_constructed 2).

(** A state with one signal track configured. *)
Definition demo_signal_state : MultiBed.MultiBedGenerator (list Z) :=
  MultiBed.mkGen (list Z) [demo_master] demo_master demo_genome [demo_provider] None 2 0
                 (Some demo_table) 200 1024 1024 1 false true MultiBed.Sliding true
                 demo_chromsizes (Some demo_master)
                 (Some (cat_nomerge (bt demo_master) (bt demo_master))).

(** Witness: the window fetched at midpoint 1050 with [seq_len] 1024. *)
Lemma fetch_window_contains_midpoint_witness :
  (MultiBed.fetch_window (list Z) demo_signal_state 1050).2
  - (MultiBed.fetch_window (list Z) demo_signal_state 1050).1 = 1024
  ∧ (inject_Z (MultiBed.fetch_window (list Z) demo_signal_state 1050).1 <= 1050)%Q
  ∧ (1050 < inject_Z (MultiBed.fetch_window (list Z) demo_signal_state 1050).2)%Q.
Proof.
  apply (MultiBed.fetch_window_contains_midpoint (list Z) demo_signal_state 1050).
  vm_compute. discriminate.
Defined.

(** Witness: label window 200 inside sequence window 1024 at midpoint 1050. *)
Lemma label_window_inside_fetch_window_witness :
  (MultiBed.fetch_window (list Z) demo_signal_state 1050).1 <= py_int (1050 - half 200)
  ∧ py_int (1050 - half 200) + 200
    <= (MultiBed.fetch_window (list Z) demo_signal_state 1050).2.
Proof.
  destruct (MultiBed.label_window_inside_fetch_window (list Z) demo_bw_getitem
              demo_signal_state 1050) as (H1 & H2 & _); [reflexivity |].
  split; [exact H1 | exact H2].
Defined.

(** Witness: the last batch of a generator with one signal track. *)
Lemma getitem_batch_shape_witness :
  (MultiBed.signals (list Z) demo_signal_state ≠ []
   ∧ length [[[8495; 9519]]; [[8495; 9519]]]
     = S (length (MultiBed.signals (list Z) demo_signal_state))
   ∧ Forall (λ col : list (list Z),
               length col = length (MultiBed.batch_rows (list Z) demo_signal_state 2 demo_table))
            [[[8495; 9519]]; [[8495; 9519]]])
  ∧ MultiBed.return_output (list Z) demo_signal_state = true
  ∧ length [MultiBed.YBools [false]]
    = length (MultiBed.batch_rows (list Z) demo_signal_state 2 demo_table).
Proof.
  apply (MultiBed.getitem_batch_shape (list Z) Z demo_rng_raw demo_bw_getitem
           demo_signal_state demo_table 2 7 8
           (MultiBed.XList (list Z) [[[8495; 9519]]; [[8495; 9519]]])
           (Some [MultiBed.YBools [false]])); vm_compute; reflexivity.
Defined.


(** A state under detection jitter with a given [output_seq_len]. *)
Definition demo_detection_state (output_seq_len : Z)
  : MultiBed.MultiBedGenerator (list Z) :=
  MultiBed.mkGen (list Z) [demo_master] demo_master demo_genome [] None 2 0
                 (Some demo_table) 200 1024 output_seq_len 1 false true MultiBed.Detection
                 true demo_chromsizes (Some demo_master)
                 (Some (cat_nomerge (bt demo_master) (bt demo_master))).

(** With [output_seq_len] -1 the shift size is -0.5: the range of the draw
    is empty. *)
Example detection_negative_output_seq_len :
  demo_getitem (demo_detection_state (-1)) 0 7 = Raise (ValueError "high <= 0").
Proof. vm_compute. reflexivity. Qed.

(** With [output_seq_len] [2^65] the lower end of the draw leaves [int64]. *)
Example detection_output_seq_len_past_int64 :
  demo_getitem (demo_detection_state (2 ^ 65)) 0 7
  = Raise (ValueError "low is out of bounds for int64").
Proof. vm_compute. reflexivity. Qed.

(** With [output_seq_len] 1024 the first batch is returned. *)
Example detection_output_seq_len_in_range :
  ∃ batch g', demo_getitem (demo_detection_state 1024) 0 7 = Ok (batch, g').
Proof. vm_compute. eauto. Qed.

(** Witness: the epoch after construction. *)
Lemma on_epoch_end_keeps_configuration_witness :
  MultiBed.same_config (list Z) demo_constructed demo_next_epoch
  ∧ MultiBed.epoch_i (list Z) demo_next_epoch = MultiBed.epoch_i (list Z) demo_constructed + 1
  ∧ df (MultiBed.master_bed (list Z) demo_next_epoch)
    = df (MultiBed.master_bed (list Z) demo_constructed)
  ∧ (is_Some (MultiBed.intervals_df_epoch_i (list Z) demo_constructed) →
     is_Some (MultiBed.intervals_df_epoch_i (list Z) demo_next_epoch)).
Proof.
  apply (MultiBed.on_epoch_end_keeps_configuration (list Z) Z demo_rng_raw demo_merge_rows
           demo_slop_rows demo_shuffle_found demo_sk_shuffle demo_constructed
           demo_next_epoch 2 4).
  vm_compute. reflexivity.
Defined.

(** Witness: the generator of the end-to-end configuration. *)
Lemma constructed_generator_invariants_witness :
  MultiBed.epoch_i (list Z) demo_constructed = 0
  ∧ is_Some (MultiBed.intervals_df_epoch_i (list Z) demo_constructed)
  ∧ VInt 200 = VInt (MultiBed.window_len (list Z) demo_constructed)
  ∧ 0 <= MultiBed.window_len (list Z) demo_constructed
    < MultiBed.seq_len (list Z) demo_constructed
  ∧ MultiBed.output_seq_len (list Z) demo_constructed = 1024
  ∧ MultiBed.negatives_ratio (list Z) demo_constructed <= 1
  ∧ MultiBed.beds (list Z) demo_constructed ≠ []
  ∧ MultiBed.batch_size (list Z) demo_constructed = 1.
Proof.
  apply (MultiBed.constructed_generator_invariants (list Z) Z demo_rng_raw demo_merge_rows
           demo_slop_rows demo_shuffle_found demo_sk_shuffle demo_bw_chroms
           (demo_args (VInt 200) 1 true) 0 2 demo_constructed).
  vm_compute. reflexivity.
Defined.

Lemma demo_constructed_reached :
  MultiBed.epochs_from (list Z) Z demo_rng_raw demo_merge_rows demo_slop_rows
    demo_shuffle_found demo_sk_shuffle
    (demo_state_of_init (demo_args (VInt 200) 1 true)) demo_next_epoch.
Proof.
  eapply MultiBed.epochs_from_step with (g := 2) (g' := 4) (self := demo_constructed).
  - eapply MultiBed.epochs_from_step with (g := 0) (g' := 2); [constructor |].
    vm_compute. reflexivity.
  - vm_compute. reflexivity.
Defined.

Lemma demo_sk_shuffle_permutes (rows : list Interval) (g : Z) :
  (demo_sk_shuffle rows g).1 ≡ₚ rows.
Proof. apply reverse_Permutation. Defined.

Lemma demo_shuffle_found_length (cs : option (gmap string (Z * Z)))
    (pool excl : list Interval) (seed : Z) (rows : list Interval) :
  demo_shuffle_found cs pool excl seed = Some rows → length rows = length pool.
Proof. intros [= <-]. apply length_map. Defined.

(** Witness: the generator constructed under sliding jitter with a
    blacklist: the region starts with the padded positive and the blacklist
    row. *)
Lemma exclusion_region_keeps_base_witness :
  MultiBed.excl_rows (list Z) (demo_state_of_init demo_args_sliding)
  = [mkInterval "chr1" 900 1200; mkInterval "chr1" 50000 51000]
  ∧ ∃ extra,
      MultiBed.excl_rows (list Z) demo_sliding_constructed
      = [mkInterval "chr1" 900 1200; mkInterval "chr1" 50000 51000] ++ extra.
Proof.
  destruct (MultiBed.exclusion_region_keeps_base (list Z) Z demo_rng_raw demo_merge_rows
              demo_slop_rows demo_shuffle_once demo_sk_shuffle demo_bw_chroms
              demo_args_sliding (demo_state_of_init demo_args_sliding)
              demo_sliding_constructed)
    as (Hbase & _ & [extra Hextra] & _).
  - vm_compute. reflexivity.
  - exact demo_sliding_constructed_reached.
  - split; [rewrite Hbase; vm_compute; reflexivity |].
    exists extra. rewrite Hextra, Hbase. vm_compute. reflexivity.
Defined.

(** Witness: the table of the second epoch. *)
Lemma epoch_table_is_positives_and_pool_witness :
  ∃ pool,
    MultiBed.negative_windows_epoch_i (list Z) demo_next_epoch = Some pool
    ∧ [mkInterval "chr1" 5000 5100; mkInterval "chr1" 1000 1100]
      ≡ₚ df (MultiBed.master_bed (list Z) demo_next_epoch) ++ df pool.
Proof.
  apply (MultiBed.epoch_table_is_positives_and_pool (list Z) Z demo_rng_raw demo_merge_rows
           demo_slop_rows demo_shuffle_found demo_sk_shuffle demo_bw_chroms
           (demo_args (VInt 200) 1 true)
           (demo_state_of_init (demo_args (VInt 200) 1 true)) demo_next_epoch
           [mkInterval "chr1" 5000 5100; mkInterval "chr1" 1000 1100]).
  - exact demo_sk_shuffle_permutes.
  - vm_compute. reflexivity.
  - exact demo_constructed_reached.
  - vm_compute. reflexivity.
Defined.

(** Witness: two rows and two batches in the end-to-end configuration. *)
Lemma epoch_table_length_witness :
  Z.of_nat (length [mkInterval "chr1" 5000 5100; mkInterval "chr1" 1000 1100]) = 2 * 1
  ∧ MultiBed.__len__ (list Z) demo_next_epoch = Ok ((2 * 1 + 1 - 1) / 1).
Proof.
  apply (MultiBed.epoch_table_length (list Z) Z demo_rng_raw demo_merge_rows
           demo_slop_rows demo_shuffle_found demo_sk_shuffle demo_bw_chroms
           (demo_args (VInt 200) 1 true)
           (demo_state_of_init (demo_args (VInt 200) 1 true)) demo_next_epoch
           [mkInterval "chr1" 5000 5100; mkInterval "chr1" 1000 1100]).
  - exact demo_sk_shuffle_permutes.
  - exact demo_shuffle_found_length.
  - vm_compute. reflexivity.
  - exact demo_constructed_reached.
  - vm_compute. reflexivity.
  - reflexivity.
Defined.

(** Witness: the chromosome sizes of the end-to-end configuration. *)
Lemma constructed_chromsizes_restricted_witness :
  (∀ c, MultiBed.chromsizes (list Z) demo_constructed !! c
        = if decide (c ∈ demo_bw_chroms (df (MultiBed.master_bed (list Z) demo_constructed)))
          then MultiBed.chroms_size_pybedtools (list Z)
                 (MultiBed.genome (list Z) demo_constructed) !! c
          else None)
  ∧ Forall (λ c, is_Some (MultiBed.chromsizes (list Z) demo_constructed !! c))
           (demo_bw_chroms (df (MultiBed.master_bed (list Z) demo_constructed)))
  ∧ bt_chromsizes (bt (MultiBed.master_bed (list Z) demo_constructed))
    = Some (MultiBed.chromsizes (list Z) demo_constructed).
Proof.
  apply (MultiBed.constructed_chromsizes_restricted (list Z) Z demo_rng_raw demo_merge_rows
           demo_slop_rows demo_shuffle_found demo_sk_shuffle demo_bw_chroms
           (demo_args (VInt 200) 1 true) 0 2 demo_constructed).
  vm_compute. reflexivity.
Defined.

(** The end-to-end configuration over a genome that knows no chromosome. *)
Definition demo_args_unknown_chrom : MultiBed.InitArgs (list Z) :=
  MultiBed.mkArgs (list Z) [demo_bed] (MultiBed.mkGenome (list Z) demo_provider ∅) []
                  None None 1 (VInt 200) 1024 None 1 false VNone true true.

(** Witness: chr1 carries the only positive interval and has no size. *)
Lemma constructor_missing_chromosome_witness :
  demo_init demo_shuffle_found demo_args_unknown_chrom 0 = Raise (KeyError "chr1").
Proof.
  apply (MultiBed.constructor_missing_chromosome (list Z) Z demo_rng_raw demo_merge_rows
           demo_slop_rows demo_shuffle_found demo_sk_shuffle demo_bw_chroms
           demo_args_unknown_chrom 0 demo_bed (200, MultiBed.NoJitter) [] [] "chr1").
  - reflexivity.
  - reflexivity.
  - reflexivity.
  - constructor.
  - reflexivity.
Defined.

(** A bedgraph of three rows read in batches of two; the track holds the
    row values position by position. *)
Definition demo_bedgraph : BedGraph.BedGraphWrapper :=
  BedGraph.mkWrapper
    [BedGraph.mkRow "chr1" 100 200 (1 # 2); BedGraph.mkRow "chr1" 300 400 (3 # 4);
     BedGraph.mkRow "chr2" 50 70 2]
    (λ _ start stop, map (λ _, 1%Q) (seqZ start (stop - start))).

Definition demo_bedgraph_gen : BedGraph.BedGraphGenerator (list Z) :=
  BedGraph.mkBedGraphGen (list Z) demo_bedgraph demo_provider 2 [] (Some 8) false false.

(** Witness: three rows in two batches. *)
Lemma bedgraph_epoch_covers_frame_witness :
  ∃ count : Z,
    BedGraph.bg_len (list Z) (λ w, Z.of_nat (length (BedGraph.bg_df w))) demo_bedgraph_gen
    = Ok count
    ∧ concat (map (λ i, (BedGraph.bg_getitem_batch (list Z) demo_bedgraph_gen i).2)
                  (seqZ 0 count))
      = BedGraph.label_column (list Z) demo_bedgraph_gen (BedGraph.bg_df demo_bedgraph)
    ∧ ∀ index, count <= index →
        (BedGraph.bg_getitem_batch (list Z) demo_bedgraph_gen index).2 = [].
Proof.
  apply (BedGraph.bedgraph_epoch_covers_frame (list Z)
           (λ w, Z.of_nat (length (BedGraph.bg_df w))) demo_bedgraph_gen); reflexivity.
Defined.

(** Witness: the last batch of the generator with one signal track. *)
Lemma getitem_arrays_share_midpoint_witness :
  ∃ ms : list Q,
    Forall2 (λ row m, ∃ ga gb,
               MultiBed.jittered_midpt (list Z) Z demo_rng_raw demo_signal_state row ga
               = Ok (m, gb))
            (MultiBed.batch_rows (list Z) demo_signal_state 2 demo_table) ms
    ∧ MultiBed.XList (list Z) [[[8495; 9519]]; [[8495; 9519]]]
      = MultiBed.XList (list Z)
          (zip_with (MultiBed.fetch_at (list Z) demo_signal_state
                       (MultiBed.g_getitem (list Z)
                          (MultiBed.genome (list Z) demo_signal_state)))
                    (MultiBed.batch_rows (list Z) demo_signal_state 2 demo_table) ms
           :: map (λ sg, zip_with (MultiBed.fetch_at (list Z) demo_signal_state sg)
                           (MultiBed.batch_rows (list Z) demo_signal_state 2 demo_table) ms)
                  (MultiBed.signals (list Z) demo_signal_state))
    ∧ Forall2 (λ rm lbl,
                 MultiBed.row_label (list Z) demo_bw_getitem demo_signal_state
                   (chrom rm.1) rm.2 = Ok lbl)
              (zip (MultiBed.batch_rows (list Z) demo_signal_state 2 demo_table) ms)
              [MultiBed.YBools [false]].
Proof.
  apply (MultiBed.getitem_arrays_share_midpoint (list Z) Z demo_rng_raw demo_bw_getitem
           demo_signal_state demo_table 2 7 8
           (MultiBed.XList (list Z) [[[8495; 9519]]; [[8495; 9519]]])
           (Some [MultiBed.YBools [false]])); vm_compute; reflexivity.
Defined.
